(** * Raffle admin app: ticket allocation, submission review, list
      accumulation and cache invalidation.

    A shallow embedding of the application logic of the raffle admin
    client (hooks/use-admin-api, SubmissionBottomSheet,
    EditRaffleBottomSheet and the dashboard screens), followed by the
    properties its specification states about it.

    Conventions of the embedding
    - JavaScript strings are [string]s: every [ascii] stands for one
      UTF-16 code unit in the range 0..255, so [String.length] is the
      JavaScript [length].
    - JavaScript numbers that hold integers are [Z] or [nat]. Doubles
      are exact on integers below 2^53 only: [to_double] rounds an
      integer result to the nearest double, and [toString] prints a
      double the way [Number.prototype.toString] does, with the shortest
      digits that denote it and in exponent notation from 10^21.
    - [Math.random()] is a value of [Q] supplied by the caller, one per
      loop iteration; the properties assume each is a double of [0, 1),
      that is a fraction k / 2^e with k below 2^53.
    - Handlers that alert, call the API and touch the query cache return
      the trace of those effects. *)

From Stdlib Require Import List String Ascii Bool Arith PeanoNat ZArith Lia.
From Stdlib Require Import QArith.
Import ListNotations.

Local Open Scope string_scope.
Local Open Scope list_scope.
Local Open Scope nat_scope.

(* ================================================================== *)
(** ** JavaScript built-ins used by the sources *)
(* ================================================================== *)

Module JS.

(** Outcome of running a call on a finite supply of random draws. *)
Inductive completion (A : Type) : Type :=
| Returned (a : A)          (* the call returned [a] *)
| Thrown (e : string)       (* the call threw an error *)
| Looping.                  (* still inside its loop when the draws ran out *)
Arguments Returned {A} a.
Arguments Thrown {A} e.
Arguments Looping {A}.

Definition code (c : ascii) : nat := nat_of_ascii c.

(** DecimalDigit: "0".."9". *)
Definition is_digit (c : ascii) : bool :=
  (48 <=? code c) && (code c <=? 57).

Definition is_hex_digit (c : ascii) : bool :=
  is_digit c || ((65 <=? code c) && (code c <=? 70))
             || ((97 <=? code c) && (code c <=? 102)).

Definition is_octal_digit (c : ascii) : bool :=
  (48 <=? code c) && (code c <=? 55).

Definition is_binary_digit (c : ascii) : bool :=
  (48 <=? code c) && (code c <=? 49).

(** WhiteSpace and LineTerminator code units below 256:
    TAB, LF, VT, FF, CR, SP, NBSP. *)
Definition is_whitespace (c : ascii) : bool :=
  ((9 <=? code c) && (code c <=? 13)) || (code c =? 32) || (code c =? 160).

(** [s === ""], also the falsiness test [!s] on a string. *)
Definition is_empty (s : string) : bool :=
  match s with EmptyString => true | String _ _ => false end.

Fixpoint all_chars (p : ascii -> bool) (s : string) : bool :=
  match s with
  | EmptyString => true
  | String c s' => p c && all_chars p s'
  end.

(** Every character is a decimal digit. *)
Definition all_digits (s : string) : bool := all_chars is_digit s.

Fixpoint trimStart (s : string) : string :=
  match s with
  | EmptyString => EmptyString
  | String c s' => if is_whitespace c then trimStart s' else s
  end.

Fixpoint rev_string (s acc : string) : string :=
  match s with
  | EmptyString => acc
  | String c s' => rev_string s' (String c acc)
  end.

Definition trimEnd (s : string) : string :=
  rev_string (trimStart (rev_string s "")) "".

(** String.prototype.trim *)
Definition trim (s : string) : string := trimEnd (trimStart s).

(** Value of a digit character in a radix up to 16 ([None] when the
    character is no digit of that radix). *)
Definition digit_value (radix : Z) (c : ascii) : option Z :=
  let n := Z.of_nat (code c) in
  let v := if is_digit c then Some (n - 48)%Z
           else if (65 <=? code c) && (code c <=? 70) then Some (n - 55)%Z
           else if (97 <=? code c) && (code c <=? 102) then Some (n - 87)%Z
           else None in
  match v with
  | Some k => if (k <? radix)%Z then Some k else None
  | None => None
  end.

Definition digit_char (k : Z) : ascii := ascii_of_nat (48 + Z.to_nat k).

(** The double nearest to the integer [n], ties going to the even
    significand: what an integer result becomes when it is stored in a
    number. Integers below 2^53 are doubles; above, 53 significant bits
    are kept. (There is no infinity here: [n] is below 2^1024.) *)
Definition to_double (n : Z) : Z :=
  let a := Z.abs n in
  if (a <? 2 ^ 53)%Z then n
  else
    let shift := (Z.log2 a - 52)%Z in
    let q := (a / 2 ^ shift)%Z in
    let r := (a mod 2 ^ shift)%Z in
    let half := (2 ^ (shift - 1))%Z in
    let q' := if (r <? half)%Z then q
              else if (half <? r)%Z then (q + 1)%Z
              else if Z.even q then q else (q + 1)%Z in
    (Z.sgn n * (q' * 2 ^ shift))%Z.

(** The decimal digits of an integer, most significant first, no leading
    zero; [fuel] bounds the digit count. *)
Fixpoint toString_digits (fuel : nat) (n : Z) (acc : string) : string :=
  match fuel with
  | O => acc
  | S fuel' =>
      let acc' := String (digit_char (n mod 10)) acc in
      if (n <? 10)%Z then acc' else toString_digits fuel' (n / 10) acc'
  end.

(** Number of decimal digits of [n >= 1]. *)
Fixpoint count_digits (fuel : nat) (n : Z) : Z :=
  match fuel with
  | O => 0%Z
  | S fuel' =>
      if (n <? 10)%Z then 1%Z else (1 + count_digits fuel' (n / 10))%Z
  end.

(** Number::toString, step 5, for the double [x >= 2^53] of [n] decimal
    digits: the pair [(s, n')] with the fewest digits [k] of [s] such
    that [s * 10^(n' - k)] is read back as [x]; of two such [s], the one
    nearer to [x], and the even one on a tie. [k] counts up from the
    call's [k]; 17 digits always do. *)
Fixpoint shortest_digits (fuel : nat) (k x n : Z) : Z * Z :=
  match fuel with
  | O => (x, n)
  | S fuel' =>
      let p := (10 ^ (n - k))%Z in
      let s := (x / p)%Z in
      let below := (s * p)%Z in
      let above := ((s + 1) * p)%Z in
      let ok_below := (to_double below =? x)%Z in
      let ok_above := (to_double above =? x)%Z in
      if ok_below || ok_above then
        if ok_above
           && (negb ok_below
               || (above - x <? x - below)%Z
               || ((above - x =? x - below)%Z && Z.odd s))
        then if (s + 1 =? 10 ^ k)%Z then ((10 ^ (k - 1))%Z, (n + 1)%Z)
             else ((s + 1)%Z, n)
        else (s, n)
      else shortest_digits fuel' (k + 1)%Z x n
  end.

(** The first [n] characters of [padString] repeated for ever; [rest] is
    what remains of the current copy. *)
Fixpoint fill (n : nat) (padString rest : string) : string :=
  match n with
  | O => EmptyString
  | S n' =>
      match rest with
      | String c rest' => String c (fill n' padString rest')
      | EmptyString =>
          match padString with
          | String c rest' => String c (fill n' padString rest')
          | EmptyString => EmptyString
          end
      end
  end.

(** String.prototype.padStart *)
Definition padStart (s : string) (targetLength : nat) (padString : string)
  : string :=
  if targetLength <=? String.length s then s
  else fill (targetLength - String.length s) padString padString ++ s.

(** Number.prototype.toString() on an integer double from 2^53 on: the
    shortest digits followed by zeros up to 10^21, and the exponent
    notation [d.ddde+x] from there. *)
Definition toString_large (x : Z) : string :=
  let (s, n) :=
    shortest_digits 17 1 x (count_digits (S (Z.to_nat (Z.log2 x))) x) in
  let digits := toString_digits (S (Z.to_nat (Z.log2 s))) s "" in
  let k := Z.of_nat (String.length digits) in
  if (n <=? 21)%Z then digits ++ fill (Z.to_nat (n - k)) "0" "0"
  else
    match digits with
    | String c rest =>
        String c ((if is_empty rest then "" else "." ++ rest)
                  ++ "e+"
                  ++ toString_digits (S (Z.to_nat (Z.log2 (n - 1)))) (n - 1) "")
    | EmptyString => EmptyString
    end.

Definition toString_unsigned (n : Z) : string :=
  if (n <? 2 ^ 53)%Z then toString_digits (S (Z.to_nat (Z.log2 n))) n ""
  else toString_large n.

(** Number.prototype.toString() on an integer that is a double: every
    digit below 2^53. *)
Definition toString (n : Z) : string :=
  if (n <? 0)%Z then String "-" (toString_unsigned (- n))
  else toString_unsigned n.

(** Array.prototype.includes on an array of strings. *)
Definition includes (arr : list string) (x : string) : bool :=
  existsb (String.eqb x) arr.

(** Array.prototype.join *)
Definition join (sep : string) (arr : list string) : string :=
  String.concat sep arr.

(** Number of elements of [new Set(arr)]. *)
Fixpoint set_of (arr : list string) : list string :=
  match arr with
  | [] => []
  | x :: rest => if includes rest x then set_of rest else x :: set_of rest
  end.

Definition set_size (arr : list string) : nat := List.length (set_of arr).

(** Math.floor(Math.random() * m), for the value [r] of Math.random()
    and the integer [m]. [r] is a double [k / 2^e]: the product
    [k * m / 2^e] is rounded to a double, which rounds the integer
    [k * m] to 53 bits, and then floored. *)
Definition floor_random_times (r : Q) (m : Z) : Z :=
  (to_double (Qnum r * m) / Z.pos (Qden r))%Z.

(** Value denoted by a run of decimal digits (leading zeros allowed). *)
Fixpoint decimal_value_from (v : Z) (s : string) : Z :=
  match s with
  | EmptyString => v
  | String c s' => decimal_value_from (10 * v + (Z.of_nat (code c) - 48))%Z s'
  end.

Definition decimal_value (s : string) : Z := decimal_value_from 0 s.

(** *** Numbers that need not be integers *)

(** A JavaScript number: NaN, an infinity, or a finite value (doubles
    are rationals). *)
Inductive number : Type :=
| NaN
| Infinity (negative : bool)
| Finite (q : Q).

Definition of_int (z : Z) : number := Finite (inject_Z z).

Definition isNaN (x : number) : bool :=
  match x with NaN => true | _ => false end.

(** [x < y] on numbers; false as soon as one side is NaN. *)
Definition number_lt (x y : number) : bool :=
  match x, y with
  | NaN, _ | _, NaN => false
  | Infinity true, Infinity true => false
  | Infinity true, _ => true
  | _, Infinity true => false
  | Infinity false, _ => false
  | _, Infinity false => true
  | Finite p, Finite q => negb (Qle_bool q p)
  end.

(** [x <= y] on numbers. *)
Definition number_le (x y : number) : bool :=
  match x, y with
  | NaN, _ | _, NaN => false
  | Infinity true, _ => true
  | _, Infinity true => false
  | _, Infinity false => true
  | Infinity false, _ => false
  | Finite p, Finite q => Qle_bool p q
  end.

(** *** Number(string): which strings convert to NaN *)

Definition is_sign (c : ascii) : bool := (c =? "+")%char || (c =? "-")%char.

(** Longest prefix of decimal digits, and what follows it. *)
Fixpoint span_digits (s : string) : string * string :=
  match s with
  | EmptyString => (EmptyString, EmptyString)
  | String c s' =>
      if is_digit c
      then let (ds, rest) := span_digits s' in (String c ds, rest)
      else (EmptyString, s)
  end.

(** ExponentPart: [e] or [E], an optional sign, one or more digits. *)
Definition is_ExponentPart (s : string) : bool :=
  match s with
  | String e rest =>
      ((e =? "e")%char || (e =? "E")%char)
      && (let ds := match rest with
                    | String c r => if is_sign c then r else rest
                    | EmptyString => rest
                    end in
          negb (is_empty ds) && all_digits ds)
  | EmptyString => false
  end.

Definition opt_ExponentPart (s : string) : bool :=
  is_empty s || is_ExponentPart s.

(** StrUnsignedDecimalLiteral: [Infinity], [ds . ds? exp?], [. ds exp?]
    or [ds exp?]. *)
Definition is_StrUnsignedDecimalLiteral (s : string) : bool :=
  String.eqb s "Infinity"
  || (let (ip, r1) := span_digits s in
      match r1 with
      | String "."%char r2 =>
          let (fp, r3) := span_digits r2 in
          (negb (is_empty ip) || negb (is_empty fp)) && opt_ExponentPart r3
      | _ => negb (is_empty ip) && opt_ExponentPart r1
      end).

Definition is_StrDecimalLiteral (s : string) : bool :=
  match s with
  | String c r =>
      if is_sign c then is_StrUnsignedDecimalLiteral r
      else is_StrUnsignedDecimalLiteral s
  | EmptyString => false
  end.

(** NonDecimalIntegerLiteral: [0x], [0b] or [0o] and at least one digit
    of that radix. *)
Definition is_NonDecimalIntegerLiteral (s : string) : bool :=
  match s with
  | String "0"%char (String p r) =>
      negb (is_empty r)
      && ((((p =? "x")%char || (p =? "X")%char) && all_chars is_hex_digit r)
          || (((p =? "b")%char || (p =? "B")%char)
              && all_chars is_binary_digit r)
          || (((p =? "o")%char || (p =? "O")%char)
              && all_chars is_octal_digit r))
  | _ => false
  end.

(** [isNaN(Number(s))] for a string [s]: [Number] trims white space, maps
    the empty string to 0 and every StrNumericLiteral to a number, and
    everything else to NaN. *)
Definition Number_isNaN (s : string) : bool :=
  let t := trim s in
  negb (is_empty t || is_StrDecimalLiteral t || is_NonDecimalIntegerLiteral t).

(** *** parseInt(string), no radix argument *)

(** Reads digits of [radix] while there are some; [acc] is the value so
    far, [None] before the first digit. *)
Fixpoint parse_digits (radix : Z) (s : string) (acc : option Z) : option Z :=
  match s with
  | String c s' =>
      match digit_value radix c with
      | Some k =>
          parse_digits radix s'
            (Some (radix * match acc with Some v => v | None => 0 end + k)%Z)
      | None => acc
      end
  | EmptyString => acc
  end.

Definition parseInt (s : string) : number :=
  let s1 := trimStart s in
  let (negative, s2) :=
    match s1 with
    | String c r => if (c =? "-")%char then (true, r)
                    else if (c =? "+")%char then (false, r)
                    else (false, s1)
    | EmptyString => (false, s1)
    end in
  let (radix, s3) :=
    match s2 with
    | String "0"%char (String p r) =>
        if (p =? "x")%char || (p =? "X")%char then (16%Z, r) else (10%Z, s2)
    | _ => (10%Z, s2)
    end in
  match parse_digits radix s3 None with
  | Some v => of_int (if negative then - v else v)
  | None => NaN
  end.

End JS.

(* ================================================================== *)
(** ** hooks/use-admin-api *)
(* ================================================================== *)

Module AdminApi.
Import JS.

(** *** Types *)

Inductive RaffleStatus : Type := draft | open | closed | completed.

Definition RaffleStatus_eqb (a b : RaffleStatus) : bool :=
  match a, b with
  | draft, draft | open, open | closed, closed | completed, completed => true
  | _, _ => false
  end.

Inductive SubmissionStatus : Type := pending | approved | rejected.

Module Raffle.
Record t : Type := {
  id : string;
  title : string;
  description : option string;
  image_url : option string;
  ticket_price : number;
  max_ticket_digits : nat;
  total_tickets : option Z;
  status : RaffleStatus;
  winner_ticket_number : option string;
  winner_email : option string;
  created_at : string;
  updated_at : string;
  opened_at : option string;
  closed_at : option string
}.
End Raffle.

Module Ticket.
Record t : Type := {
  id : string;
  submission_id : string;
  ticket_number : string;
  created_at : string
}.
End Ticket.

Module Submission.
Record t : Type := {
  id : string;
  raffle_id : string;
  email : string;
  full_name : string;
  phone : option string;
  account_holder_name : option string;
  ticket_quantity : nat;
  ticket_price : number;
  payment_method : string;
  reference_code : string;
  payment_proof_base64 : option string;
  status : SubmissionStatus;
  admin_notes : option string;
  created_at : string;
  updated_at : string;
  approved_at : option string;
  rejected_at : option string;
  tickets : option (list Ticket.t)
}.
End Submission.

Record Pagination : Type := {
  hasMore : bool;
  nextCursor : option string
}.

(** One page of a list endpoint. *)
Record Page (A : Type) : Type := {
  items : list A;
  pagination : Pagination
}.
Arguments items {A} _.
Arguments pagination {A} _.

(** *** useCurrentRaffle *)

(** Array.prototype.find *)
Definition find {A : Type} (p : A -> bool) (arr : list A) : option A :=
  List.find p arr.

(** A time value or a difference of two: an integer, or NaN ([None]). *)
Definition time_value : Type := option Z.

(** [x - y] on time values: NaN as soon as one side is. (A difference of
    two time values may be rounded; its sign, which is all that the sort
    reads, is not.) *)
Definition time_minus (x y : time_value) : time_value :=
  match x, y with
  | Some a, Some b => Some (a - b)%Z
  | _, _ => None
  end.

(** What the sort makes of a comparator result: NaN counts as +0. *)
Definition sort_order (v : time_value) : Z :=
  match v with Some z => z | None => 0%Z end.

(** Array.prototype.sort with a comparator: stable, [x] goes before [y]
    when [compareFn x y <= 0] and [x] was not after an element it ties
    with. This is the order the language fixes when the comparator is
    consistent, as a difference of time values is when none is NaN;
    with NaN results the order is the engine's, here that of an
    insertion from the right. *)
Fixpoint sort_insert {A : Type} (compareFn : A -> A -> time_value) (x : A)
    (sorted : list A) : list A :=
  match sorted with
  | [] => [x]
  | y :: rest =>
      if (sort_order (compareFn x y) <=? 0)%Z then x :: sorted
      else y :: sort_insert compareFn x rest
  end.

Definition sort {A : Type} (compareFn : A -> A -> time_value) (arr : list A)
  : list A :=
  fold_right (sort_insert compareFn) [] arr.

Section CurrentRaffle.
(** [new Date(s).getTime()]: the time value of the timestamp [s], NaN when
    [s] does not parse as a date. *)
Variable getTime : string -> time_value.

(** The queryFn of [useCurrentRaffle], on [data.raffles]. *)
Definition useCurrentRaffle (raffles : list Raffle.t) : option Raffle.t :=
  (* First try to find an open raffle *)
  match find (fun r => RaffleStatus_eqb (Raffle.status r) open) raffles with
  | Some openRaffle => Some openRaffle
  | None =>
      (* If no open raffle, get the most recent one *)
      let sortedRaffles :=
        sort (fun a b => time_minus (getTime (Raffle.created_at b))
                           (getTime (Raffle.created_at a))) raffles in
      let mostRecent := nth_error sortedRaffles 0 in
      mostRecent
  end.
End CurrentRaffle.

(** *** The query cache *)

(** A query key: an array whose parts are strings or undefined. *)
Definition QueryKey : Type := list (option string).

Definition key_part_eqb (a b : option string) : bool :=
  match a, b with
  | Some x, Some y => String.eqb x y
  | None, None => true
  | _, _ => false
  end.

(** [partialMatchKey a b]: every index of the filter key [b] holds the
    same part in the query key [a]. *)
Fixpoint partialMatchKey (a b : QueryKey) : bool :=
  match b, a with
  | [], _ => true
  | y :: b', x :: a' => key_part_eqb x y && partialMatchKey a' b'
  | _ :: _, [] => false
  end.

Record Query : Type := {
  queryKey : QueryKey;
  isInvalidated : bool     (* marked stale, to be fetched again *)
}.

Definition QueryCache : Type := list Query.

(** [queryClient.invalidateQueries({ queryKey })] *)
Definition invalidateQueries (filter : QueryKey) (cache : QueryCache)
  : QueryCache :=
  map (fun q => if partialMatchKey (queryKey q) filter
                then {| queryKey := queryKey q; isInvalidated := true |}
                else q) cache.

(** The keys of the hooks. *)
Definition key_currentRaffle : QueryKey := [Some "currentRaffle"].
Definition key_raffles : QueryKey := [Some "raffles"].
Definition key_submissions (status raffleId : option string) : QueryKey :=
  [Some "submissions"; status; raffleId].
Definition key_stats : QueryKey := [Some "stats"].
Definition key_existingTicketNumbers (raffleId : option string) : QueryKey :=
  [Some "existingTicketNumbers"; raffleId].
Definition key_approvedTickets (raffleId : option string) : QueryKey :=
  [Some "approvedTickets"; raffleId].

(** *** Effects of the handlers *)

(** Body of the PUT of [useUpdateSubmission]. *)
Record SubmissionUpdate : Type := {
  upd_status : SubmissionStatus;
  upd_assignTickets : option bool;
  upd_ticketNumbers : option (list string);
  upd_admin_notes : option string
}.

(** Partial<Raffle> as built by the raffle form; [None] in
    [rd_max_ticket_digits] means that the key is absent. *)
Record RaffleData : Type := {
  rd_title : string;
  rd_description : option string;
  rd_ticket_price : number;
  rd_status : RaffleStatus;
  rd_image_url : option string;
  rd_max_ticket_digits : option number
}.

Inductive effect : Type :=
| Alert (title message : string)
| SetIsApproving (b : bool)
| SetIsRejecting (b : bool)
| SetIsSaving (b : bool)
| ApiPutSubmission (id : string) (data : SubmissionUpdate)
| InvalidateQueries (key : QueryKey)
| ConsoleError (message : string)
| OnSave (raffleData : RaffleData)
| OnClose.

(** The query cache after the invalidations of a trace. *)
Fixpoint run_invalidations (trace : list effect) (cache : QueryCache)
  : QueryCache :=
  match trace with
  | [] => cache
  | InvalidateQueries key :: trace' =>
      run_invalidations trace' (invalidateQueries key cache)
  | _ :: trace' => run_invalidations trace' cache
  end.

(** *** useUpdateSubmission *)

Section UpdateSubmission.
(** Whether the server answers the PUT with an ok response. *)
Variable response_ok : string -> SubmissionUpdate -> bool.

Definition onSuccess : list effect :=
  [ InvalidateQueries [Some "submissions"];
    InvalidateQueries [Some "stats"];
    InvalidateQueries [Some "existingTicketNumbers"];
    InvalidateQueries [Some "approvedTickets"] ].

Definition onError : list effect :=
  [ ConsoleError "Update submission error:" ].

(** [updateSubmission.mutateAsync({ id, data })]: the effects, and
    whether the promise resolved. *)
Definition mutateAsync (id : string) (data : SubmissionUpdate)
  : list effect * bool :=
  if response_ok id data
  then (ApiPutSubmission id data :: onSuccess, true)
  else (ApiPutSubmission id data :: onError, false).
End UpdateSubmission.

(** *** generateRandomTicketNumbers *)

(** The body of the while loop, run on the successive values of
    Math.random(); the sum [... + 1] is a double again. *)
Fixpoint generate_loop (draws : list Q) (count maxDigits : nat)
    (maxNumber : Z) (existingNumbers numbers : list string)
  : completion (list string) :=
  if List.length numbers <? count then
    match draws with
    | [] => Looping
    | r :: draws' =>
        let randomNumber :=
          to_double (floor_random_times r maxNumber + 1) in
        let ticketNumber := padStart (toString randomNumber) maxDigits "0" in
        if negb (includes existingNumbers ticketNumber)
           && negb (includes numbers ticketNumber)
        then generate_loop draws' count maxDigits maxNumber existingNumbers
               (numbers ++ [ticketNumber])
        else generate_loop draws' count maxDigits maxNumber existingNumbers
               numbers
    end
  else Returned numbers.

(** [Math.pow(10, maxDigits) - 1], the power and the difference each
    rounded to a double. 10^d is a double up to d = 22; for the powers
    beyond, the embedding takes the nearest double, where an engine may
    be one unit off, and it has no Infinity for those from 10^309 on. *)
Definition maxNumber_of (maxDigits : nat) : Z :=
  to_double (to_double (10 ^ Z.of_nat maxDigits) - 1).

Definition generateRandomTicketNumbers (draws : list Q)
    (count maxDigits : nat) (existingNumbers : list string)
  : completion (list string) :=
  let numbers := [] in
  let maxNumber := maxNumber_of maxDigits in
  generate_loop draws count maxDigits maxNumber existingNumbers numbers.

End AdminApi.


(* ================================================================== *)
(** ** components/SubmissionBottomSheet *)
(* ================================================================== *)

Module SubmissionBottomSheet.
Import JS AdminApi.

(** The alerts of [handleApprove]. *)
Definition alert_invalid_numbers (raffleMaxDigits : nat) : effect :=
  Alert "Error"
    ("Please ensure all ticket numbers are "
     ++ toString (Z.of_nat raffleMaxDigits) ++ "-digit numbers").

Definition alert_not_unique : effect :=
  Alert "Error" "Please ensure all ticket numbers are unique".

Definition alert_conflicts (conflicts : list string) : effect :=
  Alert "Error"
    ("Ticket number(s) " ++ join ", " conflicts ++ " already exist").

(** The predicate of the first filter of [handleApprove]. *)
Definition is_invalid_number (raffleMaxDigits : nat) (number : string)
  : bool :=
  is_empty number
  || negb (String.length number =? raffleMaxDigits)
  || Number_isNaN number.

Section Handlers.
Variable response_ok : string -> SubmissionUpdate -> bool.

(** [handleApprove], on the props and the state it reads. *)
Definition handleApprove (submission : option Submission.t)
    (ticketNumbers : list string) (raffleMaxDigits : nat)
    (existingTicketNumbers : list string) : list effect :=
  match submission with
  | None => []
  | Some submission =>
      (* Validate ticket numbers *)
      let invalidNumbers :=
        filter (is_invalid_number raffleMaxDigits) ticketNumbers in
      if 0 <? List.length invalidNumbers
      then [alert_invalid_numbers raffleMaxDigits]
      else
        (* Check for duplicates *)
        if negb (set_size ticketNumbers =? List.length ticketNumbers)
        then [alert_not_unique]
        else
          (* Check for conflicts with existing numbers *)
          let conflicts :=
            filter (fun number => includes existingTicketNumbers number)
              ticketNumbers in
          if 0 <? List.length conflicts
          then [alert_conflicts conflicts]
          else
            let (sent, resolved) :=
              mutateAsync response_ok (Submission.id submission)
                {| upd_status := approved;
                   upd_assignTickets := Some true;
                   upd_ticketNumbers := Some ticketNumbers;
                   upd_admin_notes := None |} in
            [SetIsApproving true] ++ sent
            ++ (if resolved
                then [Alert "Success" "Submission approved successfully";
                      OnClose]
                else [ConsoleError "Error approving submission:";
                      Alert "Error" "Failed to approve submission"])
            ++ [SetIsApproving false]
  end.

(** [handleReject] *)
Definition handleReject (submission : option Submission.t)
    (rejectionNote : string) : list effect :=
  match submission with
  | None => []
  | Some submission =>
      if is_empty (trim rejectionNote)
      then [Alert "Error" "Please provide a rejection reason"]
      else
        let (sent, resolved) :=
          mutateAsync response_ok (Submission.id submission)
            {| upd_status := rejected;
               upd_assignTickets := None;
               upd_ticketNumbers := None;
               upd_admin_notes := Some rejectionNote |} in
        [SetIsRejecting true] ++ sent
        ++ (if resolved
            then [Alert "Success" "Submission rejected successfully";
                  OnClose]
            else [ConsoleError "Error rejecting submission:";
                  Alert "Error" "Failed to reject submission"])
        ++ [SetIsRejecting false]
  end.
End Handlers.

End SubmissionBottomSheet.

(* ================================================================== *)
(** ** components/EditRaffleBottomSheet *)
(* ================================================================== *)

Module EditRaffleBottomSheet.
Import JS AdminApi.

(** The state of the form. *)
Record FormState : Type := {
  title : string;
  description : string;
  ticketPrice : string;
  status : RaffleStatus;
  maxDigits : string;
  imageBase64 : string
}.

(** What [onSave] may reject with. *)
Inductive SaveError : Type :=
| ApiError (error : string)         (* an object with an [error] field *)
| Exception (message : string)      (* an object with a [message] field *)
| StringError (s : string)
| OtherError.

Definition or_null (s : string) : option string :=
  if is_empty s then None else Some s.

Definition errorMessage (error : SaveError) : string :=
  match error with
  | ApiError e => if is_empty e then "An unexpected error occurred" else e
  | Exception m => if is_empty m then "An unexpected error occurred" else m
  | StringError s => s
  | OtherError => "An unexpected error occurred"
  end.

Section Save.
(** [parseFloat] on the price field. *)
Variable parseFloat : string -> number.
(** The [onSave] prop: [None] when its promise resolves. *)
Variable onSave : RaffleData -> option SaveError.

(** [handleSave], on the [raffle] prop and the form state. *)
Definition handleSave (raffle : option Raffle.t) (form : FormState)
  : list effect :=
  if is_empty (trim (title form))
  then [Alert "Error" "Title is required"]
  else if is_empty (trim (ticketPrice form))
          || isNaN (parseFloat (ticketPrice form))
  then [Alert "Error" "Valid ticket price is required"]
  else
    let price := parseFloat (ticketPrice form) in
    if number_le price (of_int 0)
    then [Alert "Error" "Ticket price must be greater than 0"]
    else if match raffle with
            | Some _ => false
            | None => is_empty (trim (maxDigits form))
                      || isNaN (parseInt (maxDigits form))
            end
    then [Alert "Error" "Valid max digits is required"]
    else
      let digits := parseInt (maxDigits form) in
      if match raffle with
         | Some _ => false
         | None => number_lt digits (of_int 1)
                   || number_lt (of_int 10) digits
         end
      then [Alert "Error" "Max digits must be between 1 and 10"]
      else
        let raffleData :=
          {| rd_title := trim (title form);
             rd_description := or_null (trim (description form));
             rd_ticket_price := price;
             rd_status := status form;
             rd_image_url := or_null (imageBase64 form);
             (* Only include for new raffles *)
             rd_max_ticket_digits :=
               match raffle with Some _ => None | None => Some digits end
          |} in
        [SetIsSaving true; OnSave raffleData]
        ++ match onSave raffleData with
           | None =>
               [Alert "Success"
                  (match raffle with
                   | Some _ => "Raffle updated successfully"
                   | None => "Raffle created successfully"
                   end);
                OnClose]
           | Some error =>
               [ConsoleError "Error saving raffle:";
                Alert "Error" (errorMessage error)]
           end
        ++ [SetIsSaving false].
End Save.

(** The payload handed to [onSave] by a trace, if any. *)
Fixpoint saved_payload (trace : list effect) : option RaffleData :=
  match trace with
  | [] => None
  | OnSave raffleData :: _ => Some raffleData
  | _ :: trace' => saved_payload trace'
  end.

End EditRaffleBottomSheet.

(* ================================================================== *)
(** ** app/(tabs): the dashboard and the raffles screen *)
(* ================================================================== *)

Module Screens.
Import JS AdminApi.

(** [data?.pages?.flatMap(page => page.items) || []] for the data of an
    infinite query ([None] while it is undefined). *)
Definition flatMap_pages {A : Type} (data : option (list (Page A)))
  : list A :=
  match data with
  | Some pages => flat_map items pages
  | None => []
  end.

(** [allSubmissions] of [renderSubmissions] and [handleTicketPress]. *)
Definition allSubmissions (submissions : option (list (Page Submission.t)))
  : list Submission.t := flatMap_pages submissions.

(** [allTickets] of [renderSubmissions]. *)
Definition allTickets (approvedTickets : option (list (Page Ticket.t)))
  : list Ticket.t := flatMap_pages approvedTickets.

(** [allRaffles] of [renderRafflesList]. *)
Definition allRaffles (raffles : option (list (Page Raffle.t)))
  : list Raffle.t := flatMap_pages raffles.

End Screens.

(* ================================================================== *)
(** ** Notions used by the statements *)
(* ================================================================== *)

Import JS AdminApi.

(** A value that [Math.random()] can return: a double of [0, 1), that is
    [k / 2^e] with [0 <= k < 2^53], [k < 2^e] and [e <= 1074]. *)
Definition is_random_value (r : Q) : bool :=
  (0 <=? Qnum r)%Z && (Qnum r <? 2 ^ 53)%Z && (Qnum r <? Z.pos (Qden r))%Z
  && (Z.pos (Qden r) =? 2 ^ Z.log2 (Z.pos (Qden r)))%Z
  && (Z.log2 (Z.pos (Qden r)) <=? 1074)%Z.

Definition valid_draw (r : Q) : Prop := is_random_value r = true.

(** [maxValue(d) = 10^d - 1], which the [maxNumber] of the generator is up
    to 15 digits. *)
Definition maxValue (d : nat) : Z := (10 ^ Z.of_nat d - 1)%Z.

(** The ticket string of the integer [n] in a raffle of [d] digits, as the
    generator builds it. *)
Definition format (n : Z) (d : nat) : string := padStart (toString n) d "0".

(** [s] is the [d]-digit string of an integer between [lo] and
    [maxValue d]. *)
Definition ticket_in_range (lo : Z) (d : nat) (s : string) : Prop :=
  String.length s = d
  /\ all_digits s = true
  /\ (lo <= decimal_value s <= maxValue d)%Z
  /\ s = format (decimal_value s) d.

(** The strings of 1 .. [maxValue d], and those of them not issued yet. *)
Definition candidates (d : nat) : list string :=
  map (fun n => format (Z.of_nat n) d) (seq 1 (Z.to_nat (maxValue d))).

Definition free_candidates (d : nat) (issued : list string) : list string :=
  filter (fun s => negb (includes issued s)) (candidates d).

(** A draw under which the random number is [n], for [maxNumber = m]:
    the multiple of 2^-52 just below [(n - 1/2) / m]. *)
Definition draw_for (n m : Z) : Q :=
  ((2 * n - 1) * 2 ^ 51 / m)%Z # 4503599627370496.

(** What the loop of the generator keeps true of [numbers]. *)
Definition accepted (d : nat) (issued numbers : list string) : Prop :=
  NoDup numbers
  /\ Forall (fun s => ticket_in_range 1 d s /\ ~ In s issued) numbers.

(** The spec's errors of [approve], as the alerts of [handleApprove]. *)
Definition DuplicateInBatch : effect := SubmissionBottomSheet.alert_not_unique.


(** Every element of the batch passes the format filter of
    [handleApprove]. *)
Definition passes_format_check (raffleMaxDigits : nat)
    (ticketNumbers : list string) : bool :=
  forallb (fun number =>
             negb (SubmissionBottomSheet.is_invalid_number raffleMaxDigits
                     number))
    ticketNumbers.

(** A trace that sends nothing to the server and touches no query. *)
Definition changes_nothing (trace : list effect) : Prop :=
  (forall e, In e trace -> exists title message, e = Alert title message).

(** The update request of an approval. *)
Definition approve_request (submission : Submission.t)
    (ticketNumbers : list string) : effect :=
  ApiPutSubmission (Submission.id submission)
    {| upd_status := approved;
       upd_assignTickets := Some true;
       upd_ticketNumbers := Some ticketNumbers;
       upd_admin_notes := None |}.

(** The queries that the [onSuccess] of [useUpdateSubmission] marks. *)
Definition touched_by_update (key : QueryKey) : bool :=
  partialMatchKey key [Some "submissions"]
  || partialMatchKey key [Some "stats"]
  || partialMatchKey key [Some "existingTicketNumbers"]
  || partialMatchKey key [Some "approvedTickets"].

(** Sample entities for the concrete cases. *)
Definition sample_submission (quantity : nat) : Submission.t :=
  {| Submission.id := "sub-1";
     Submission.raffle_id := "raffle-1";
     Submission.email := "ana@example.com";
     Submission.full_name := "Ana";
     Submission.phone := None;
     Submission.account_holder_name := None;
     Submission.ticket_quantity := quantity;
     Submission.ticket_price := of_int 5;
     Submission.payment_method := "transfer";
     Submission.reference_code := "REF1";
     Submission.payment_proof_base64 := None;
     Submission.status := pending;
     Submission.admin_notes := None;
     Submission.created_at := "2025-01-01T00:00:00Z";
     Submission.updated_at := "2025-01-01T00:00:00Z";
     Submission.approved_at := None;
     Submission.rejected_at := None;
     Submission.tickets := None |}.

Definition sample_ticket : Ticket.t :=
  {| Ticket.id := "tic-1";
     Ticket.submission_id := "sub-1";
     Ticket.ticket_number := "010";
     Ticket.created_at := "2025-01-02T00:00:00Z" |}.

Definition sample_raffle (id : string) (status : RaffleStatus)
    (created_at : string) : Raffle.t :=
  {| Raffle.id := id;
     Raffle.title := "Raffle";
     Raffle.description := None;
     Raffle.image_url := None;
     Raffle.ticket_price := of_int 5;
     Raffle.max_ticket_digits := 3;
     Raffle.total_tickets := None;
     Raffle.status := status;
     Raffle.winner_ticket_number := None;
     Raffle.winner_email := None;
     Raffle.created_at := created_at;
     Raffle.updated_at := created_at;
     Raffle.opened_at := None;
     Raffle.closed_at := None |}.

Definition one_page {A : Type} (l : list A) : Page A :=
  {| items := l; pagination := {| hasMore := false; nextCursor := None |} |}.


(** [q] with its stale mark set when [p] holds of its key. *)
Definition mark_stale (p : QueryKey -> bool) (q : Query) : Query :=
  {| queryKey := queryKey q;
     isInvalidated := isInvalidated q || p (queryKey q) |}.

(** The comparator of the sort of [useCurrentRaffle]. *)
Definition created_time (getTime : string -> time_value) (r : Raffle.t)
  : time_value :=
  getTime (Raffle.created_at r).

Definition newest_first_by (getTime : string -> time_value) (a b : Raffle.t)
  : time_value :=
  time_minus (created_time getTime b) (created_time getTime a).

(** Every raffle of the list has a created_at that parses as a date. *)
Definition all_dates_parse (getTime : string -> time_value)
    (raffles : list Raffle.t) : Prop :=
  forall r, In r raffles -> getTime (Raffle.created_at r) <> None.

(** [Date.getTime] on the timestamps of the concrete cases; any other
    string is taken not to parse. *)
Definition sample_getTime (s : string) : time_value :=
  if String.eqb s "2025-01-01T00:00:00Z" then Some 1735689600000%Z
  else if String.eqb s "2025-02-01T00:00:00Z" then Some 1738368000000%Z
  else if String.eqb s "2025-03-01T00:00:00Z" then Some 1740787200000%Z
  else None.

Definition sample_form (maxDigits : string) : EditRaffleBottomSheet.FormState :=
  {| EditRaffleBottomSheet.title := " Summer raffle ";
     EditRaffleBottomSheet.description := "";
     EditRaffleBottomSheet.ticketPrice := "5";
     EditRaffleBottomSheet.status := draft;
     EditRaffleBottomSheet.maxDigits := maxDigits;
     EditRaffleBottomSheet.imageBase64 := "" |}.

(* ================================================================== *)
(** ** hooks/use-admin-api: list queries and raffle mutations *)
(* ================================================================== *)

Module Queries.
Import JS AdminApi.

(** [getNextPageParam] of the infinite queries ([None] is undefined). *)
Definition getNextPageParam {A : Type} (lastPage : Page A) : option string :=
  if hasMore (pagination lastPage)
  then nextCursor (pagination lastPage)
  else None.

(** A URLSearchParams object: the pairs appended, in order. *)
Definition URLSearchParams : Type := list (string * string).

(** [if (value) params.append(key, value)] *)
Definition append_if (params : URLSearchParams) (key : string)
    (value : option string) : URLSearchParams :=
  match value with
  | Some v => if is_empty v then params else params ++ [(key, v)]
  | None => params
  end.

(** The query string of the queryFn of [useSubmissions]. *)
Definition useSubmissions_params (status raffleId pageParam : option string)
  : URLSearchParams :=
  let params := [] in
  let params := append_if params "status" status in
  let params := append_if params "raffle_id" raffleId in
  let params := append_if params "cursor" pageParam in
  params ++ [("limit", "10")].

(** The query string of the request that follows [lastPage] in the list of
    submissions: the infinite query calls the queryFn with what
    [getNextPageParam] returns, and has no next page when that is
    undefined. *)
Definition nextSubmissionsRequest (status raffleId : option string)
    (lastPage : Page Submission.t) : option URLSearchParams :=
  match getNextPageParam lastPage with
  | Some pageParam =>
      Some (useSubmissions_params status raffleId (Some pageParam))
  | None => None
  end.

(** The queryFn of [useExistingTicketNumbers], on the [raffleId] argument
    and on [data.tickets] of the response ([None] when it has none). *)
Definition useExistingTicketNumbers (raffleId : option string)
    (tickets : option (list Ticket.t)) : list string :=
  match raffleId with
  | None => []
  | Some id =>
      if is_empty id then []
      else match tickets with
           | Some tickets => map Ticket.ticket_number tickets
           | None => []
           end
  end.

(** Requests of the raffle mutations. *)
Inductive RaffleRequest : Type :=
| PostRaffle (data : RaffleData)                      (* POST /raffles *)
| PutRaffle (raffleId : string) (data : RaffleData)   (* PUT /raffles/:id *)
| PutRaffleClosed (raffleId : string)   (* PUT /raffles/:id, status closed *)
| DeleteRaffle (raffleId : string).                   (* DELETE /raffles/:id *)

(** What the raffle screens do: send a request, one of the effects of the
    sheets, or set a piece of their own state. *)
Inductive action : Type :=
| Sent (request : RaffleRequest)
| Did (e : effect)
| SetIsCreateModalVisible (b : bool)
| SetIsEditModalVisible (b : bool).

(** The effects among the actions of a trace. *)
Fixpoint effects_of (trace : list action) : list effect :=
  match trace with
  | [] => []
  | Did e :: trace' => e :: effects_of trace'
  | _ :: trace' => effects_of trace'
  end.

(** The requests among the actions of a trace. *)
Fixpoint requests_of (trace : list action) : list RaffleRequest :=
  match trace with
  | [] => []
  | Sent r :: trace' => r :: requests_of trace'
  | _ :: trace' => requests_of trace'
  end.

Section RaffleMutations.
(** The answer of the server: [None] for an ok response, else the message
    of the error that [apiCall] throws. *)
Variable server : RaffleRequest -> option string.

(** A mutation: the request, then [onSuccess] or [onError]; the second
    component is what [mutateAsync] rejects with, if it does. *)
Definition mutation (onSuccess : list effect) (onError : string)
    (request : RaffleRequest)
  : list action * option EditRaffleBottomSheet.SaveError :=
  match server request with
  | None => (Sent request :: map Did onSuccess, None)
  | Some message =>
      ([Sent request; Did (ConsoleError onError)],
       Some (EditRaffleBottomSheet.Exception message))
  end.

Definition useCloseRaffle (raffleId : string) :=
  mutation [ InvalidateQueries [Some "currentRaffle"];
             InvalidateQueries [Some "stats"] ]
    "Close raffle error:" (PutRaffleClosed raffleId).

Definition useCreateRaffle (data : RaffleData) :=
  mutation [ InvalidateQueries [Some "raffles"];
             InvalidateQueries [Some "currentRaffle"];
             InvalidateQueries [Some "stats"] ]
    "Create raffle error:" (PostRaffle data).

Definition useUpdateRaffle (raffleId : string) (data : RaffleData) :=
  mutation [ InvalidateQueries [Some "raffles"];
             InvalidateQueries [Some "currentRaffle"];
             InvalidateQueries [Some "stats"] ]
    "Update raffle error:" (PutRaffle raffleId data).

Definition useDeleteRaffle (raffleId : string) :=
  mutation [ InvalidateQueries [Some "raffles"];
             InvalidateQueries [Some "currentRaffle"];
             InvalidateQueries [Some "stats"] ]
    "Delete raffle error:" (DeleteRaffle raffleId).
End RaffleMutations.

End Queries.

(* ================================================================== *)
(** ** components/SubmissionBottomSheet: the state of the ticket inputs *)
(* ================================================================== *)

Module SheetState.
Import JS AdminApi.

(** [arr[index] = value] on an array that may have holes ([None]): past the
    end the array grows, the slots skipped staying empty. *)
Fixpoint assign (arr : list (option string)) (index : nat) (value : string)
  : list (option string) :=
  match arr, index with
  | [], O => [Some value]
  | [], S index' => None :: assign [] index' value
  | _ :: rest, O => Some value :: rest
  | x :: rest, S index' => x :: assign rest index' value
  end.

(** [handleTicketNumberChange]: the new state of [ticketNumbers]. *)
Definition handleTicketNumberChange (ticketNumbers : list string)
    (index : nat) (value : string) : list (option string) :=
  let newNumbers := map Some ticketNumbers in
  assign newNumbers index value.



End SheetState.

(* ================================================================== *)
(** ** app/(tabs): handlers of the dashboard and of the raffles screen *)
(* ================================================================== *)

Module Dashboard.
Import JS AdminApi Queries Screens.

(** The [raffleMaxDigits] prop of the submission sheet:
    [currentRaffle?.max_ticket_digits || 3]. *)
Definition raffleMaxDigits (currentRaffle : option Raffle.t) : nat :=
  match currentRaffle with
  | Some raffle =>
      if Raffle.max_ticket_digits raffle =? 0 then 3
      else Raffle.max_ticket_digits raffle
  | None => 3
  end.

(** The state that [handleTicketPress] writes. *)
Record SheetSelection : Type := {
  selectedSubmission : option Submission.t;
  isBottomSheetVisible : bool
}.

(** [handleTicketPress] *)
Definition handleTicketPress (state : SheetSelection)
    (submissions : option (list (Page Submission.t))) (ticket : Ticket.t)
  : SheetSelection :=
  (* Find the submission for this ticket and show it *)
  let allSubmissions := flatMap_pages submissions in
  let submission :=
    find (fun s => String.eqb (Submission.id s) (Ticket.submission_id ticket))
      allSubmissions in
  match submission with
  | Some submission =>
      {| selectedSubmission := Some submission; isBottomSheetVisible := true |}
  | None => state
  end.

Section Save.
Variable server : RaffleRequest -> option string.

(** [handleEditRaffleSave] *)
Definition handleEditRaffleSave (currentRaffle : option Raffle.t)
    (updatedRaffle : RaffleData)
  : list action * option EditRaffleBottomSheet.SaveError :=
  match currentRaffle with
  | None => ([], None)
  | Some currentRaffle =>
      useUpdateRaffle server (Raffle.id currentRaffle) updatedRaffle
  end.
End Save.

End Dashboard.

Module RafflesScreen.
Import JS AdminApi Queries.

Section Save.
Variable server : RaffleRequest -> option string.

(** [handleCreateSave] *)
Definition handleCreateSave (raffleData : RaffleData)
  : list action * option EditRaffleBottomSheet.SaveError :=
  match useCreateRaffle server raffleData with
  | (sent, None) => (sent ++ [SetIsCreateModalVisible false], None)
  | (sent, Some error) => (sent, Some error)
  end.

(** [handleEditSave] *)
Definition handleEditSave (selectedRaffle : option Raffle.t)
    (raffleData : RaffleData)
  : list action * option EditRaffleBottomSheet.SaveError :=
  match selectedRaffle with
  | None => ([], None)
  | Some selectedRaffle =>
      match useUpdateRaffle server (Raffle.id selectedRaffle) raffleData with
      | (sent, None) => (sent ++ [SetIsEditModalVisible false], None)
      | (sent, Some error) => (sent, Some error)
      end
  end.
End Save.

End RafflesScreen.

(* ================================================================== *)
(** ** components/EditRaffleBottomSheet: filling the form *)
(* ================================================================== *)

Module EditRaffleForm.
Import JS AdminApi EditRaffleBottomSheet.

(** [s || fallback] on strings. *)
Definition or_else (s fallback : string) : string :=
  if is_empty s then fallback else s.

Definition or_empty (s : option string) : string :=
  match s with Some s => s | None => "" end.

Section Reset.
(** [Number.prototype.toString] on a price. *)
Variable numberToString : number -> string.

(** The form as the effect on [raffle] sets it. *)
Definition resetForm (raffle : option Raffle.t) : FormState :=
  match raffle with
  | Some raffle =>
      {| title := or_else (Raffle.title raffle) "";
         description := or_else (or_empty (Raffle.description raffle)) "";
         ticketPrice :=
           or_else (numberToString (Raffle.ticket_price raffle)) "";
         status := Raffle.status raffle;
         maxDigits :=
           or_else (toString (Z.of_nat (Raffle.max_ticket_digits raffle))) "6";
         imageBase64 := or_else (or_empty (Raffle.image_url raffle)) "" |}
  | None =>
      (* Reset form for new raffle *)
      {| title := ""; description := ""; ticketPrice := ""; status := draft;
         maxDigits := "6"; imageBase64 := "" |}
  end.
End Reset.

(** The form after [setTitle] and [setTicketPrice]. *)
Definition with_title_and_price (form : FormState) (t p : string)
  : FormState :=
  {| title := t; description := description form; ticketPrice := p;
     status := status form; maxDigits := maxDigits form;
     imageBase64 := imageBase64 form |}.

End EditRaffleForm.

(** The sheet of a raffle with its [onSave] prop: the trace of
    [handleSave], each call of [onSave] followed by what the handler
    [onSave] does. *)
Definition save_flow (parseFloat : string -> number)
    (onSave : RaffleData
              -> list Queries.action * option EditRaffleBottomSheet.SaveError)
    (raffle : option Raffle.t) (form : EditRaffleBottomSheet.FormState)
  : list Queries.action :=
  flat_map (fun e => match e with
                     | OnSave raffleData =>
                         Queries.Did e :: fst (onSave raffleData)
                     | _ => [Queries.Did e]
                     end)
    (EditRaffleBottomSheet.handleSave parseFloat
       (fun raffleData => snd (onSave raffleData)) raffle form).

(** The tickets that a list of draws yields, each kept the first time it
    shows and only if it is neither issued nor among [seen]. *)
Fixpoint fresh_tickets (issued : list string) (tickets seen : list string)
  : list string :=
  match tickets with
  | [] => []
  | t :: rest =>
      if includes issued t || includes seen t
      then fresh_tickets issued rest seen
      else t :: fresh_tickets issued rest (seen ++ [t])
  end.

(** The ticket that the draw [r] yields in a raffle of [d] digits. *)
Definition ticket_of_draw (d : nat) (r : Q) : string :=
  format (to_double (floor_random_times r (maxNumber_of d) + 1)) d.

(** The query keys that one of the filters [filters] matches. *)
Definition touched_by (filters : list QueryKey) (key : QueryKey) : bool :=
  existsb (partialMatchKey key) filters.

(** The request of a rejection. *)
Definition reject_request (submission : Submission.t) (note : string)
  : effect :=
  ApiPutSubmission (Submission.id submission)
    {| upd_status := rejected;
       upd_assignTickets := None;
       upd_ticketNumbers := None;
       upd_admin_notes := Some note |}.

(** What [handleSave] does once [onSave] has settled with [result]. *)
Definition save_outcome (raffle : option Raffle.t)
    (result : option EditRaffleBottomSheet.SaveError) : list effect :=
  match result with
  | None =>
      [Alert "Success"
         (match raffle with
          | Some _ => "Raffle updated successfully"
          | None => "Raffle created successfully"
          end);
       OnClose]
  | Some error =>
      [ConsoleError "Error saving raffle:";
       Alert "Error" (EditRaffleBottomSheet.errorMessage error)]
  end.

(** What holds of the payload [data] that a form is saved with. *)
Definition saved_data_ok (parseFloat : string -> number)
    (raffle : option Raffle.t) (form : EditRaffleBottomSheet.FormState)
    (data : RaffleData) : Prop :=
  rd_title data = trim (EditRaffleBottomSheet.title form)
  /\ is_empty (rd_title data) = false
  /\ rd_description data
     = EditRaffleBottomSheet.or_null
         (trim (EditRaffleBottomSheet.description form))
  /\ rd_ticket_price data = parseFloat (EditRaffleBottomSheet.ticketPrice form)
  /\ isNaN (rd_ticket_price data) = false
  /\ number_le (rd_ticket_price data) (of_int 0) = false
  /\ rd_status data = EditRaffleBottomSheet.status form
  /\ rd_image_url data
     = EditRaffleBottomSheet.or_null (EditRaffleBottomSheet.imageBase64 form)
  /\ match raffle with
     | Some _ => rd_max_ticket_digits data = None
     | None =>
         exists k : Z,
           rd_max_ticket_digits data = Some (of_int k) /\ (1 <= k <= 10)%Z
     end.

(* ================================================================== *)
(** * Properties *)
(* ================================================================== *)

(** Draws given one by one are values of Math.random(). *)
Ltac valid_draws :=
  repeat (apply Forall_cons; [vm_compute; reflexivity |]); apply Forall_nil.

(** ** Strings and decimal digits *)

Section StringFacts.

Lemma string_app_assoc (a b c : string) :
  ((a ++ b) ++ c = a ++ (b ++ c))%string.
Proof. induction a as [|x a IH]; simpl; [reflexivity | now rewrite IH]. Qed.

Lemma string_app_length (a b : string) :
  String.length (a ++ b) = String.length a + String.length b.
Proof. induction a as [|x a IH]; simpl; [reflexivity | now rewrite IH]. Qed.

Lemma all_chars_app (p : ascii -> bool) (a b : string) :
  all_chars p (a ++ b) = all_chars p a && all_chars p b.
Proof.
  induction a as [|x a IH]; simpl; [reflexivity |].
  now rewrite IH, andb_assoc.
Qed.

Lemma code_digit_char (k : Z) :
  (0 <= k < 10)%Z -> code (digit_char k) = 48 + Z.to_nat k.
Proof.
  intros Hk. unfold code, digit_char. apply nat_ascii_embedding. lia.
Qed.

Lemma is_digit_digit_char (k : Z) :
  (0 <= k < 10)%Z -> is_digit (digit_char k) = true.
Proof.
  intros Hk. unfold is_digit. rewrite code_digit_char by assumption.
  apply andb_true_intro; split; apply Nat.leb_le; lia.
Qed.

Lemma toString_digits_acc (fuel : nat) : forall (n : Z) (acc : string),
  toString_digits fuel n acc = (toString_digits fuel n "" ++ acc)%string.
Proof.
  induction fuel as [|fuel IH]; intros n acc; [reflexivity |].
  cbn [toString_digits].
  destruct (n <? 10)%Z; [reflexivity |].
  rewrite IH. rewrite (IH _ (String _ "")).
  now rewrite string_app_assoc.
Qed.

Lemma toString_digits_all_digits (fuel : nat) : forall (n : Z),
  all_digits (toString_digits fuel n "") = true.
Proof.
  induction fuel as [|fuel IH]; intros n; [reflexivity |].
  cbn [toString_digits].
  assert (Hd : is_digit (digit_char (n mod 10)) = true)
    by (apply is_digit_digit_char, Z.mod_pos_bound; lia).
  destruct (n <? 10)%Z.
  - unfold all_digits; cbn [all_chars]. now rewrite Hd.
  - rewrite toString_digits_acc. unfold all_digits in *.
    rewrite all_chars_app, IH. cbn [all_chars]. now rewrite Hd.
Qed.

Lemma toString_digits_length (fuel : nat) : forall (n : Z) (d : nat),
  1 <= d -> (0 <= n < 10 ^ Z.of_nat d)%Z ->
  String.length (toString_digits fuel n "") <= d.
Proof.
  induction fuel as [|fuel IH]; intros n d Hd Hn; [simpl; lia |].
  cbn [toString_digits].
  destruct (n <? 10)%Z eqn:E; cbn [String.length]; [lia |].
  apply Z.ltb_ge in E.
  rewrite toString_digits_acc, string_app_length. cbn [String.length].
  destruct d as [|[|d]];
    [lia | change (10 ^ Z.of_nat 1)%Z with 10%Z in Hn; lia |].
  assert (String.length (toString_digits fuel (n / 10) "") <= S d); [| lia].
  apply IH; [lia |].
  split; [apply Z.div_pos; lia |].
  apply Z.div_lt_upper_bound; [lia |].
  replace (Z.of_nat (S (S d))) with (Z.succ (Z.of_nat (S d))) in Hn by lia.
  rewrite Z.pow_succ_r in Hn by lia. lia.
Qed.

Lemma decimal_value_from_app (a b : string) : forall v,
  decimal_value_from v (a ++ b) = decimal_value_from (decimal_value_from v a) b.
Proof. induction a as [|x a IH]; intros v; simpl; [reflexivity | apply IH]. Qed.

Lemma toString_digits_value (fuel : nat) : forall (n : Z),
  (0 <= n < 2 ^ Z.of_nat fuel)%Z ->
  decimal_value (toString_digits fuel n "") = n.
Proof.
  unfold decimal_value.
  induction fuel as [|fuel IH]; intros n Hn; [simpl in *; lia |].
  cbn [toString_digits].
  assert (Hm : (0 <= n mod 10 < 10)%Z) by (apply Z.mod_pos_bound; lia).
  destruct (n <? 10)%Z eqn:E.
  - apply Z.ltb_lt in E. cbn [decimal_value_from].
    rewrite code_digit_char by assumption.
    rewrite Z.mod_small by lia. lia.
  - apply Z.ltb_ge in E.
    rewrite toString_digits_acc, decimal_value_from_app.
    rewrite IH.
    + cbn [decimal_value_from]. rewrite code_digit_char by assumption.
      pose proof (Z.div_mod n 10). lia.
    + split; [apply Z.div_pos; lia |].
      apply Z.div_lt_upper_bound; [lia |].
      replace (Z.of_nat (S fuel)) with (Z.succ (Z.of_nat fuel)) in Hn by lia.
      rewrite Z.pow_succ_r in Hn by lia. lia.
Qed.

(** Below 2^53 a number prints all its digits. *)
Lemma toString_nonneg (n : Z) :
  (0 <= n < 2 ^ 53)%Z ->
  toString n = toString_digits (S (Z.to_nat (Z.log2 n))) n "".
Proof.
  intros Hn. unfold toString, toString_unsigned.
  destruct (n <? 0)%Z eqn:E; [apply Z.ltb_lt in E; lia |].
  destruct (n <? 2 ^ 53)%Z eqn:E'; [reflexivity |].
  apply Z.ltb_ge in E'. lia.
Qed.

Lemma toString_value (n : Z) :
  (0 <= n < 2 ^ 53)%Z -> decimal_value (toString n) = n.
Proof.
  intros Hn. rewrite toString_nonneg by assumption.
  apply toString_digits_value. split; [lia |].
  rewrite Nat2Z.inj_succ, Z2Nat.id by apply Z.log2_nonneg.
  destruct (Z.eq_dec n 0) as [->|Hz]; [reflexivity |].
  apply Z.log2_spec. lia.
Qed.

Lemma fill_zero (n : nat) : forall rest,
  rest = "" \/ rest = "0" ->
  fill n "0" rest = string_of_list_ascii (repeat "0"%char n).
Proof.
  induction n as [|n IH]; intros rest Hrest; [reflexivity |].
  destruct Hrest as [-> | ->]; simpl; rewrite IH; auto.
Qed.

Lemma zeros_length (n : nat) :
  String.length (string_of_list_ascii (repeat "0"%char n)) = n.
Proof. induction n as [|n IH]; simpl; [reflexivity | now rewrite IH]. Qed.

Lemma zeros_all_digits (n : nat) :
  all_digits (string_of_list_ascii (repeat "0"%char n)) = true.
Proof. induction n as [|n IH]; simpl; [reflexivity | exact IH]. Qed.

Lemma zeros_value (n : nat) (s : string) :
  decimal_value (string_of_list_ascii (repeat "0"%char n) ++ s)
  = decimal_value s.
Proof. induction n as [|n IH]; simpl; [reflexivity | exact IH]. Qed.

Lemma padStart_zero (s : string) (d : nat) :
  padStart s d "0"
  = (string_of_list_ascii (repeat "0"%char (d - String.length s)) ++ s)%string.
Proof.
  unfold padStart. destruct (d <=? String.length s) eqn:E.
  - apply Nat.leb_le in E. replace (d - String.length s) with 0 by lia.
    reflexivity.
  - rewrite fill_zero by auto. reflexivity.
Qed.

Lemma includes_In (arr : list string) (x : string) :
  includes arr x = true <-> In x arr.
Proof.
  unfold includes. rewrite existsb_exists. split.
  - intros (y & Hy & E). apply String.eqb_eq in E. now subst.
  - intros H. exists x. split; [assumption | apply String.eqb_refl].
Qed.

Lemma includes_not_In (arr : list string) (x : string) :
  includes arr x = false <-> ~ In x arr.
Proof.
  rewrite <- includes_In. destruct (includes arr x); split; congruence.
Qed.

End StringFacts.

(** ** Lists *)

Section ListFacts.

(** What [find] returns is the first element that passes the test. *)
Lemma find_first {A : Type} (p : A -> bool) (l : list A) (x : A) :
  List.find p l = Some x ->
  exists before after,
    l = before ++ x :: after /\ p x = true
    /\ forall b, In b before -> p b = false.
Proof.
  induction l as [|y l IH]; [discriminate |]. cbn [List.find].
  destruct (p y) eqn:E.
  - intros [= <-]. exists [], l. repeat split; [assumption | intros ? []].
  - intros H. destruct (IH H) as (before & after & -> & Hp & Hb).
    exists (y :: before), after. repeat split; [assumption |].
    intros b [<- | Hin]; [assumption | now apply Hb].
Qed.

End ListFacts.

(** ** Doubles that hold integers *)

Section DoubleFacts.

Lemma to_double_small (n : Z) : (Z.abs n < 2 ^ 53)%Z -> to_double n = n.
Proof.
  intros H. unfold to_double. apply Z.ltb_lt in H. now rewrite H.
Qed.

(** Rounding moves an integer by at most its 2^53-th part. *)
Lemma to_double_error (a : Z) :
  (0 <= a)%Z ->
  ((to_double a - a) * 2 ^ 53 <= a)%Z /\ ((a - to_double a) * 2 ^ 53 <= a)%Z.
Proof.
  intros Ha. unfold to_double. rewrite (Z.abs_eq a Ha).
  destruct (a <? 2 ^ 53)%Z eqn:E; [lia |].
  apply Z.ltb_ge in E. cbv zeta.
  assert (Hpos : (0 < a)%Z) by (assert (0 < 2 ^ 53)%Z by reflexivity; lia).
  rewrite (Z.sgn_pos a Hpos), Z.mul_1_l.
  destruct (Z.log2_spec a Hpos) as [Hlo _].
  assert (Hlog : (53 <= Z.log2 a)%Z).
  { change 53%Z with (Z.log2 (2 ^ 53)). now apply Z.log2_le_mono. }
  set (s := (Z.log2 a - 52)%Z) in *.
  assert (Hs : (1 <= s)%Z) by (unfold s; lia).
  assert (Hp : (0 < 2 ^ (s - 1))%Z) by (apply Z.pow_pos_nonneg; lia).
  assert (E2 : (2 ^ s = 2 * 2 ^ (s - 1))%Z).
  { replace s with (Z.succ (s - 1)) at 1 by lia. apply Z.pow_succ_r. lia. }
  assert (E3 : (2 ^ Z.log2 a = 2 ^ 52 * 2 ^ s)%Z).
  { replace (Z.log2 a) with (52 + s)%Z by (unfold s; lia).
    apply Z.pow_add_r; lia. }
  set (h := (2 ^ (s - 1))%Z) in *.
  pose proof (Z.div_mod a (2 ^ s) ltac:(lia)) as Hdm.
  pose proof (Z.mod_pos_bound a (2 ^ s) ltac:(lia)) as Hr.
  set (q := (a / 2 ^ s)%Z) in *. set (r := (a mod 2 ^ s)%Z) in *.
  rewrite E2 in *.
  assert (Hq : (2 ^ 52 <= q)%Z).
  { assert (2 ^ 52 * (2 * h) < (q + 1) * (2 * h))%Z by lia.
    assert (2 ^ 52 < q + 1)%Z; [| lia].
    apply (Z.mul_lt_mono_pos_r (2 * h)); lia. }
  change (2 ^ 53)%Z with (2 * 2 ^ 52)%Z.
  assert (Hh : (2 * 2 ^ 52 * h <= a)%Z) by lia.
  destruct (r <? h)%Z eqn:E1; [apply Z.ltb_lt in E1; nia |].
  apply Z.ltb_ge in E1.
  destruct (h <? r)%Z eqn:E4; [apply Z.ltb_lt in E4; nia |].
  apply Z.ltb_ge in E4. assert (r = h) by lia.
  destruct (Z.even q); nia.
Qed.

Lemma to_double_nonneg (a : Z) : (0 <= a)%Z -> (0 <= to_double a)%Z.
Proof.
  intros Ha. destruct (to_double_error a Ha) as [_ H].
  assert (0 < 2 ^ 53)%Z by reflexivity. nia.
Qed.

Lemma pow10_small (d : nat) : d <= 15 -> (10 ^ Z.of_nat d < 2 ^ 50)%Z.
Proof.
  intros Hd.
  assert (10 ^ Z.of_nat d <= 10 ^ 15)%Z by (apply Z.pow_le_mono_r; lia).
  assert (10 ^ 15 < 2 ^ 50)%Z by reflexivity. lia.
Qed.

(** Up to 15 digits [maxNumber] is 10^d - 1 itself. *)
Lemma maxNumber_exact (d : nat) : d <= 15 -> maxNumber_of d = maxValue d.
Proof.
  intros Hd. pose proof (pow10_small d Hd) as H. unfold maxNumber_of.
  assert (0 < 10 ^ Z.of_nat d)%Z by (apply Z.pow_pos_nonneg; lia).
  assert (2 ^ 50 < 2 ^ 53)%Z by reflexivity.
  rewrite (to_double_small (10 ^ Z.of_nat d)) by lia.
  unfold maxValue. apply to_double_small. lia.
Qed.

Lemma valid_draw_spec (r : Q) :
  valid_draw r ->
  (0 <= Qnum r < 2 ^ 53)%Z /\ (Qnum r < Z.pos (Qden r))%Z.
Proof.
  unfold valid_draw, is_random_value. intros H.
  repeat (apply andb_true_iff in H; destruct H as [H ?]).
  apply Z.leb_le in H.
  repeat match goal with
         | X : (_ <? _)%Z = true |- _ => apply Z.ltb_lt in X
         end.
  lia.
Qed.

End DoubleFacts.

(** ** The ticket number generator *)

Section Generator.

Lemma maxValue_pos (d : nat) : 1 <= d -> (9 <= maxValue d)%Z.
Proof.
  intros Hd. unfold maxValue.
  assert (10 ^ 1 <= 10 ^ Z.of_nat d)%Z by (apply Z.pow_le_mono_r; lia).
  change (10 ^ 1)%Z with 10%Z in *. lia.
Qed.

Lemma maxValue_small (d : nat) : d <= 15 -> (maxValue d < 2 ^ 50)%Z.
Proof. intros Hd. pose proof (pow10_small d Hd). unfold maxValue. lia. Qed.

Lemma floor_random_times_range (r : Q) (m : Z) :
  valid_draw r -> (0 < m)%Z -> (0 <= floor_random_times r m < m)%Z.
Proof.
  intros Hr Hm. apply valid_draw_spec in Hr. destruct Hr as [Hk Hlt].
  unfold floor_random_times.
  set (k := Qnum r) in *. set (D := Z.pos (Qden r)) in *.
  assert (HD : (0 < D)%Z) by (unfold D; lia).
  assert (Hkm : (0 <= k * m)%Z) by nia.
  destruct (to_double_error (k * m) Hkm) as [Hup _].
  pose proof (to_double_nonneg (k * m) Hkm) as H0.
  split; [apply Z.div_pos; lia |].
  apply Z.div_lt_upper_bound; [lia |].
  assert (H53 : (0 < 2 ^ 53)%Z) by reflexivity.
  set (P := (2 ^ 53)%Z) in *. nia.
Qed.

(** Up to 15 digits the random number is an integer of 1 .. maxValue,
    which [+ 1] does not round. *)
Lemma randomNumber_range (d : nat) (r : Q) :
  1 <= d <= 15 -> valid_draw r ->
  to_double (floor_random_times r (maxValue d) + 1)
  = (floor_random_times r (maxValue d) + 1)%Z
  /\ (1 <= floor_random_times r (maxValue d) + 1 <= maxValue d)%Z.
Proof.
  intros [Hd Hd'] Hr. pose proof (maxValue_pos d Hd) as HM.
  pose proof (floor_random_times_range r (maxValue d) Hr ltac:(lia)) as H.
  pose proof (maxValue_small d Hd') as Hs.
  assert (2 ^ 50 < 2 ^ 53)%Z by reflexivity.
  split; [apply to_double_small |]; lia.
Qed.

Lemma draw_for_valid (n m : Z) :
  (1 <= n <= m)%Z -> valid_draw (draw_for n m).
Proof.
  intros Hn. unfold valid_draw, is_random_value, draw_for. cbn [Qnum Qden].
  change (Z.pos 4503599627370496) with (2 ^ 52)%Z.
  assert (H53 : (2 ^ 53 = 4 * 2 ^ 51)%Z) by reflexivity.
  assert (H52 : (2 ^ 52 = 2 * 2 ^ 51)%Z) by reflexivity.
  assert (H0 : (0 < 2 ^ 51)%Z) by reflexivity.
  assert (Hq : (0 <= (2 * n - 1) * 2 ^ 51 / m < 2 ^ 52)%Z).
  { split; [apply Z.div_pos; nia |].
    apply Z.div_lt_upper_bound; [lia |]. nia. }
  repeat (apply andb_true_iff; split);
    [apply Z.leb_le | apply Z.ltb_lt | apply Z.ltb_lt | reflexivity
    | reflexivity]; lia.
Qed.

Lemma draw_for_hits (n m : Z) :
  (1 <= n <= m)%Z -> (m < 2 ^ 50)%Z ->
  to_double (floor_random_times (draw_for n m) m + 1) = n.
Proof.
  intros Hn Hm. unfold floor_random_times, draw_for. cbn [Qnum Qden].
  change (Z.pos 4503599627370496) with (2 ^ 52)%Z.
  assert (H53 : (2 ^ 53 = 8 * 2 ^ 50)%Z) by reflexivity.
  assert (H52 : (2 ^ 52 = 4 * 2 ^ 50)%Z) by reflexivity.
  assert (H51 : (2 ^ 51 = 2 * 2 ^ 50)%Z) by reflexivity.
  assert (H0 : (0 < 2 ^ 50)%Z) by reflexivity.
  set (T := ((2 * n - 1) * 2 ^ 51)%Z).
  pose proof (Z.mul_div_le T m ltac:(lia)) as Hle.
  pose proof (Z.mul_succ_div_gt T m ltac:(lia)) as Hgt.
  set (k := (T / m)%Z) in *.
  assert (Hk : (0 <= k)%Z) by (apply Z.div_pos; unfold T; nia).
  assert (Hkm : (0 <= k * m)%Z) by nia.
  destruct (to_double_error (k * m) Hkm) as [Hup Hdown].
  set (x := to_double (k * m)) in *.
  assert (Hq : (x / 2 ^ 52 = n - 1)%Z).
  { symmetry.
    apply (Z.div_unique_pos x (2 ^ 52) (n - 1) (x - (n - 1) * 2 ^ 52));
      [| lia].
    unfold T in *. rewrite H53 in *. rewrite H52 in *. rewrite H51 in *.
    set (P := (2 ^ 50)%Z) in *. nia. }
  rewrite Hq. replace (n - 1 + 1)%Z with n by lia. apply to_double_small.
  assert (2 ^ 50 < 2 ^ 53)%Z by reflexivity. lia.
Qed.

Lemma format_in_range (d : nat) (n : Z) :
  1 <= d <= 15 -> (0 <= n <= maxValue d)%Z ->
  decimal_value (format n d) = n /\ ticket_in_range n d (format n d).
Proof.
  intros [Hd Hd'] Hn. pose proof (maxValue_small d Hd') as Hs.
  assert (H53 : (2 ^ 50 < 2 ^ 53)%Z) by reflexivity.
  unfold maxValue in Hn, Hs.
  assert (Hv : decimal_value (format n d) = n).
  { unfold format. rewrite padStart_zero, zeros_value.
    apply toString_value; lia. }
  split; [exact Hv |].
  unfold ticket_in_range. rewrite Hv. unfold maxValue.
  repeat split; try lia.
  - unfold format. rewrite padStart_zero, string_app_length, zeros_length.
    assert (String.length (toString n) <= d); [| lia].
    rewrite toString_nonneg by lia. apply toString_digits_length; lia.
  - unfold format, all_digits. rewrite padStart_zero, all_chars_app.
    fold (all_digits (string_of_list_ascii (repeat "0"%char
                        (d - String.length (toString n))))).
    rewrite zeros_all_digits. rewrite toString_nonneg by lia.
    apply toString_digits_all_digits.
Qed.

Lemma ticket_in_range_weaken (lo lo' : Z) (d : nat) (s : string) :
  (lo' <= lo)%Z -> ticket_in_range lo d s -> ticket_in_range lo' d s.
Proof.
  unfold ticket_in_range. intros Hlo (Hl & Ha & Hv & Hf).
  repeat split; try assumption; lia.
Qed.

Lemma generate_loop_eq (draws : list Q) (count maxDigits : nat) (maxNumber : Z)
    (existingNumbers numbers : list string) :
  generate_loop draws count maxDigits maxNumber existingNumbers numbers
  = if List.length numbers <? count then
      match draws with
      | [] => Looping
      | r :: draws' =>
          let ticketNumber :=
            format (to_double (floor_random_times r maxNumber + 1))
              maxDigits in
          if negb (includes existingNumbers ticketNumber)
             && negb (includes numbers ticketNumber)
          then generate_loop draws' count maxDigits maxNumber
                 existingNumbers (numbers ++ [ticketNumber])
          else generate_loop draws' count maxDigits maxNumber
                 existingNumbers numbers
      end
    else Returned numbers.
Proof. destruct draws; reflexivity. Qed.

(** Up to 15 digits the generator runs its loop on 10^d - 1. *)
Lemma generateRandomTicketNumbers_eq (draws : list Q) (count d : nat)
    (issued : list string) :
  d <= 15 ->
  generateRandomTicketNumbers draws count d issued
  = generate_loop draws count d (maxValue d) issued [].
Proof.
  intros Hd. unfold generateRandomTicketNumbers. cbv zeta.
  now rewrite maxNumber_exact.
Qed.

Lemma NoDup_snoc (l : list string) (x : string) :
  NoDup l -> ~ In x l -> NoDup (l ++ [x]).
Proof.
  intros Hl Hx. apply (NoDup_Add (a := x) (l := l)).
  - rewrite <- (app_nil_r l) at 1. apply Add_app.
  - now split.
Qed.

Lemma accepted_step (d : nat) (issued numbers : list string) (r : Q) :
  1 <= d <= 15 -> valid_draw r -> accepted d issued numbers ->
  let t := format (to_double (floor_random_times r (maxValue d) + 1)) d in
  includes issued t = false -> includes numbers t = false ->
  accepted d issued (numbers ++ [t]).
Proof.
  intros Hd Hr [Hnd Hall] t Hi Hn.
  apply includes_not_In in Hi. apply includes_not_In in Hn.
  destruct (randomNumber_range d r Hd Hr) as [Hexact Hrange].
  split; [now apply NoDup_snoc |].
  apply Forall_app. split; [assumption |].
  constructor; [| constructor]. split; [| assumption].
  subst t. rewrite Hexact in *.
  apply ticket_in_range_weaken
    with (lo := (floor_random_times r (maxValue d) + 1)%Z); [lia |].
  apply format_in_range; [assumption | lia].
Qed.

Lemma generate_loop_returns (d count : nat) (issued : list string) :
  1 <= d <= 15 ->
  forall (draws : list Q) (numbers result : list string),
    Forall valid_draw draws ->
    List.length numbers <= count ->
    accepted d issued numbers ->
    generate_loop draws count d (maxValue d) issued numbers = Returned result ->
    List.length result = count /\ accepted d issued result.
Proof.
  intros Hd. induction draws as [|r draws IH];
    intros numbers result Hdraws Hlen Hacc; rewrite generate_loop_eq.
  - destruct (List.length numbers <? count) eqn:E; [discriminate |].
    apply Nat.ltb_ge in E. intros [= <-]. split; [lia | assumption].
  - destruct (List.length numbers <? count) eqn:E.
    2:{ apply Nat.ltb_ge in E. intros [= <-]. split; [lia | assumption]. }
    apply Nat.ltb_lt in E. inversion Hdraws as [|? ? Hr Hrest]; subst.
    cbv zeta.
    destruct (includes issued _) eqn:Ei; cbn [negb andb].
    + now apply IH.
    + destruct (includes numbers _) eqn:En; cbn [negb andb].
      * now apply IH.
      * apply IH; [assumption | rewrite length_app; simpl; lia |].
        now apply accepted_step.
Qed.

Lemma accepted_nil (d : nat) (issued : list string) : accepted d issued [].
Proof. split; constructor. Qed.

Lemma ticket_in_candidates (d : nat) (r : Q) :
  1 <= d <= 15 -> valid_draw r ->
  In (format (to_double (floor_random_times r (maxValue d) + 1)) d)
    (candidates d).
Proof.
  intros Hd Hr. destruct (randomNumber_range d r Hd Hr) as [Hexact Hrange].
  rewrite Hexact. unfold candidates. apply in_map_iff.
  exists (Z.to_nat (floor_random_times r (maxValue d) + 1)). split.
  - rewrite Z2Nat.id by lia. reflexivity.
  - apply in_seq. lia.
Qed.

(** With fewer free values than [count], the loop condition never
    becomes false. *)
Lemma generate_loop_stuck (d count : nat) (issued : list string) :
  1 <= d <= 15 ->
  List.length (free_candidates d issued) < count ->
  forall (draws : list Q) (numbers : list string),
    Forall valid_draw draws ->
    NoDup numbers ->
    incl numbers (free_candidates d issued) ->
    generate_loop draws count d (maxValue d) issued numbers = Looping.
Proof.
  intros Hd Hfree.
  induction draws as [|r draws IH]; intros numbers Hdraws Hnd Hincl;
    rewrite generate_loop_eq;
    pose proof (NoDup_incl_length Hnd Hincl) as Hlen;
    destruct (List.length numbers <? count) eqn:E;
    try (apply Nat.ltb_ge in E; lia); [reflexivity |].
  inversion Hdraws as [|? ? Hr Hrest]; subst. cbv zeta.
  destruct (includes issued _) eqn:Ei; cbn [negb andb]; [now apply IH |].
  destruct (includes numbers _) eqn:En; cbn [negb andb]; [now apply IH |].
  apply includes_not_In in En.
  apply IH; [assumption | now apply NoDup_snoc |].
  intros x Hx. apply in_app_or in Hx. destruct Hx as [Hx | [<- | []]].
  - now apply Hincl.
  - apply filter_In. split; [now apply ticket_in_candidates |].
    now rewrite Ei.
Qed.


Lemma format_injective (d : nat) (n m : Z) :
  1 <= d <= 15 -> (0 <= n <= maxValue d)%Z -> (0 <= m <= maxValue d)%Z ->
  format n d = format m d -> n = m.
Proof.
  intros Hd Hn Hm E.
  destruct (format_in_range d n Hd Hn) as [<- _].
  destruct (format_in_range d m Hd Hm) as [<- _].
  now rewrite E.
Qed.

(** Draws that hit, one after the other, the distinct free numbers
    [picks] make the loop accept them all and return. *)
Lemma generate_loop_picks (d : nat) (issued : list string) :
  1 <= d <= 15 ->
  forall (picks : list nat) (numbers : list string),
    NoDup picks ->
    (forall n, In n picks ->
       (1 <= Z.of_nat n <= maxValue d)%Z
       /\ ~ In (format (Z.of_nat n) d) issued
       /\ ~ In (format (Z.of_nat n) d) numbers) ->
    generate_loop
      (map (fun n => draw_for (Z.of_nat n) (maxValue d)) picks)
      (List.length numbers + List.length picks) d (maxValue d) issued numbers
    = Returned (numbers ++ map (fun n => format (Z.of_nat n) d) picks).
Proof.
  intros Hd. pose proof (maxValue_small d (proj2 Hd)) as Hs.
  induction picks as [|a picks IH]; intros numbers Hnd Hall;
    rewrite generate_loop_eq; cbn [List.length map].
  - replace (List.length numbers <? List.length numbers + 0) with false
      by (symmetry; apply Nat.ltb_ge; lia).
    now rewrite app_nil_r.
  - replace (List.length numbers <? List.length numbers + S (List.length picks))
      with true by (symmetry; apply Nat.ltb_lt; lia).
    destruct (Hall a (or_introl eq_refl)) as (Ha & Hai & Han).
    inversion Hnd as [|? ? Hnotin Hnd']; subst.
    cbv zeta. rewrite draw_for_hits by assumption.
    apply includes_not_In in Hai. apply includes_not_In in Han.
    rewrite Hai, Han. cbn [negb andb].
    replace (List.length numbers + S (List.length picks))
      with (List.length (numbers ++ [format (Z.of_nat a) d])
            + List.length picks)
      by (rewrite length_app; simpl; lia).
    rewrite IH; [now rewrite <- app_assoc | assumption |].
    intros n Hn. destruct (Hall n (or_intror Hn)) as (Hr & Hi & Hnum).
    split; [assumption |]. split; [assumption |].
    intros Hin. apply in_app_or in Hin. destruct Hin as [Hin | [E | []]];
      [contradiction |].
    apply format_injective in E; [| assumption | lia | lia].
    apply Nat2Z.inj in E. subst. contradiction.
Qed.

Lemma filter_map_length {A B : Type} (f : A -> B) (p : B -> bool)
    (l : list A) :
  List.length (filter p (map f l))
  = List.length (filter (fun x => p (f x)) l).
Proof.
  induction l as [|x l IH]; [reflexivity |]. cbn [map filter].
  destruct (p (f x)); cbn [List.length]; now rewrite IH.
Qed.

(** With at least [c] free values, some draws make the call return. *)
Lemma generateRandomTicketNumbers_can_return (c d : nat)
    (issued : list string) :
  1 <= d <= 15 -> c <= List.length (free_candidates d issued) ->
  exists draws result,
    Forall valid_draw draws
    /\ generateRandomTicketNumbers draws c d issued = Returned result.
Proof.
  intros Hd Hc. pose proof (maxValue_pos d (proj1 Hd)) as HM.
  set (free := filter (fun n => negb (includes issued (format (Z.of_nat n) d)))
                 (seq 1 (Z.to_nat (maxValue d)))).
  assert (Hlen : List.length free = List.length (free_candidates d issued)).
  { unfold free, free_candidates, candidates. now rewrite filter_map_length. }
  set (picks := firstn c free).
  assert (Hin : forall n, In n picks -> In n free).
  { intros n Hn. rewrite <- (firstn_skipn c free). apply in_or_app. now left. }
  assert (Hnd : NoDup picks).
  { apply (NoDup_app_remove_r picks (skipn c free)). unfold picks.
    rewrite firstn_skipn. apply NoDup_filter, seq_NoDup. }
  assert (Hall : forall n, In n picks ->
             (1 <= Z.of_nat n <= maxValue d)%Z
             /\ ~ In (format (Z.of_nat n) d) issued
             /\ ~ In (format (Z.of_nat n) d) []).
  { intros n Hn. apply Hin in Hn. apply filter_In in Hn.
    destruct Hn as [Hseq Hfree]. apply in_seq in Hseq.
    apply negb_true_iff, includes_not_In in Hfree.
    split; [lia |]. split; [assumption | intros []]. }
  exists (map (fun n => draw_for (Z.of_nat n) (maxValue d)) picks).
  exists (map (fun n => format (Z.of_nat n) d) picks).
  split.
  - apply Forall_forall. intros r Hr. apply in_map_iff in Hr.
    destruct Hr as (n & <- & Hn). apply draw_for_valid. now apply Hall.
  - pose proof (generate_loop_picks d issued Hd picks [] Hnd Hall) as Hrun.
    cbn [List.length Nat.add app] in Hrun.
    rewrite generateRandomTicketNumbers_eq by apply Hd.
    replace (List.length picks) with c in Hrun; [exact Hrun |].
    unfold picks. rewrite length_firstn. lia.
Qed.

(** C1, as the code has it. For every digit width [1 <= d <= 15], where
    the numbers of the generator are exact, count [c >= 1] and issued set,
    when [generateRandomTicketNumbers c d issued] returns, it returns
    exactly [c] pairwise distinct strings, each of length [d], made of
    decimal digits, the [d]-digit writing of an integer of
    [0 .. 10^d - 1], and none of them in the issued set. *)
Theorem generateRandomTicketNumbers_returns_fresh_tickets
    (draws : list Q) (c d : nat) (issued result : list string) :
  1 <= d <= 15 -> 1 <= c ->
  Forall valid_draw draws ->
  generateRandomTicketNumbers draws c d issued = Returned result ->
  List.length result = c
  /\ NoDup result
  /\ forall s, In s result ->
       String.length s = d
       /\ all_digits s = true
       /\ (0 <= decimal_value s <= 10 ^ Z.of_nat d - 1)%Z
       /\ s = padStart (toString (decimal_value s)) d "0"
       /\ ~ In s issued.
Proof.
  intros Hd Hc Hdraws Hret.
  rewrite generateRandomTicketNumbers_eq in Hret by apply Hd.
  apply (generate_loop_returns d c issued Hd draws [] result) in Hret;
    [| assumption | simpl; lia | apply accepted_nil].
  destruct Hret as [Hlen [Hnd Hall]].
  split; [exact Hlen |]. split; [exact Hnd |].
  intros s Hs. rewrite Forall_forall in Hall.
  destruct (Hall s Hs) as [(Hl & Ha & Hv & Hf) Hfresh].
  unfold maxValue in Hv. unfold format in Hf.
  repeat split; try assumption; lia.
Qed.

Lemma generateRandomTicketNumbers_returns_fresh_tickets_witness :
  List.length ["500"; "996"] = 2
  /\ NoDup ["500"; "996"]
  /\ forall s, In s ["500"; "996"] ->
       String.length s = 3
       /\ all_digits s = true
       /\ (0 <= decimal_value s <= 10 ^ Z.of_nat 3 - 1)%Z
       /\ s = padStart (toString (decimal_value s)) 3 "0"
       /\ ~ In s ["001"].
Proof.
  apply (generateRandomTicketNumbers_returns_fresh_tickets
           [0; 1 # 2; 1 # 2; 255 # 256]%Q 2 3 ["001"]).
  - lia.
  - lia.
  - valid_draws.
  - vm_compute. reflexivity.
Defined.

(** C1 fails as stated for wide raffles, whose numbers are beyond the
    integers that a double holds exactly. With 22 digits the draw 1/2
    yields 5 * 10^21, which prints in exponent notation: the ticket has
    22 characters that are not all digits. With 16 digits the largest
    draw yields 10^16: the ticket has 17 characters. *)
Lemma generateRandomTicketNumbers_wide_counterexample :
  (valid_draw (1 # 2)
   /\ generateRandomTicketNumbers [1 # 2]%Q 1 22 []
      = Returned ["000000000000000005e+21"]
   /\ all_digits "000000000000000005e+21" = false)
  /\ (valid_draw (9007199254740991 # 9007199254740992)
      /\ generateRandomTicketNumbers
           [9007199254740991 # 9007199254740992]%Q 1 16 []
         = Returned ["10000000000000000"]
      /\ String.length "10000000000000000" <> 16).
Proof.
  split; (split; [vm_compute; reflexivity |]);
    (split; [vm_compute; reflexivity |]).
  - reflexivity.
  - simpl. lia.
Qed.

Lemma free_candidates_bound (d : nat) (issued : list string) :
  NoDup issued -> incl issued (candidates d) ->
  List.length (free_candidates d issued) + List.length issued
  <= Z.to_nat (maxValue d).
Proof.
  intros Hnd Hincl.
  assert (Hlen : List.length (candidates d) = Z.to_nat (maxValue d))
    by (unfold candidates; now rewrite length_map, length_seq).
  rewrite <- Hlen. unfold free_candidates.
  assert (Hsplit : forall l : list string,
             List.length (filter (fun s => negb (includes issued s)) l)
             + List.length (filter (includes issued) l) = List.length l).
  { induction l as [|x l IH]; [reflexivity |]. cbn [filter].
    destruct (includes issued x); cbn [negb List.length]; lia. }
  assert (Hissued : List.length issued
                    <= List.length (filter (includes issued) (candidates d))).
  { apply NoDup_incl_length; [assumption |].
    intros x Hx. apply filter_In. split; [now apply Hincl |].
    now apply includes_In. }
  specialize (Hsplit (candidates d)). lia.
Qed.

(** C2, as the code has it. The generator has no SpaceExhausted error:
    for every digit width [1 <= d <= 15], when [count] exceeds the number
    of values of [1 .. 10^d - 1] whose string is not issued -- in
    particular when [count + |issued| > 10^d - 1] for an issued set of
    distinct ticket strings of that range -- the call never returns,
    whatever the random draws are. *)
Theorem generateRandomTicketNumbers_loops_when_exhausted
    (draws : list Q) (c d : nat) (issued : list string) :
  1 <= d <= 15 ->
  Forall valid_draw draws ->
  (List.length (free_candidates d issued) < c ->
   generateRandomTicketNumbers draws c d issued = Looping)
  /\ (NoDup issued -> incl issued (candidates d) ->
      (Z.of_nat c + Z.of_nat (List.length issued) > 10 ^ Z.of_nat d - 1)%Z ->
      generateRandomTicketNumbers draws c d issued = Looping).
Proof.
  intros Hd Hdraws.
  assert (Hstuck : List.length (free_candidates d issued) < c ->
                   generateRandomTicketNumbers draws c d issued = Looping).
  { intros Hfree. rewrite generateRandomTicketNumbers_eq by apply Hd.
    apply (generate_loop_stuck d c issued Hd Hfree draws []);
      [assumption | constructor | intros x []]. }
  split; [exact Hstuck |].
  intros Hnd Hincl Hcount. apply Hstuck.
  pose proof (free_candidates_bound d issued Hnd Hincl) as Hb.
  pose proof (maxValue_pos d (proj1 Hd)) as HM. unfold maxValue in *. lia.
Qed.

Lemma generateRandomTicketNumbers_loops_when_exhausted_witness :
  generateRandomTicketNumbers [0; 1 # 2; 7 # 8]%Q 10 1 [] = Looping
  /\ generateRandomTicketNumbers [0; 1 # 2; 7 # 8]%Q 3 1
       ["1"; "2"; "3"; "4"; "5"; "6"; "7"] = Looping.
Proof.
  assert (Hdraws : Forall valid_draw [0; 1 # 2; 7 # 8]%Q)
    by (valid_draws).
  split.
  - apply (proj1 (generateRandomTicketNumbers_loops_when_exhausted
                    [0; 1 # 2; 7 # 8]%Q 10 1 [] ltac:(lia) Hdraws)).
    apply Nat.ltb_lt. vm_compute. reflexivity.
  - apply (proj2 (generateRandomTicketNumbers_loops_when_exhausted
                    [0; 1 # 2; 7 # 8]%Q 3 1
                    ["1"; "2"; "3"; "4"; "5"; "6"; "7"] ltac:(lia) Hdraws)).
    + repeat constructor; simpl; intuition discriminate.
    + intros x Hx. vm_compute. simpl in Hx. intuition.
    + vm_compute. reflexivity.
Defined.

(** C2 fails as stated: with count 11, one digit and nothing issued
    (11 + 0 > 10^1) the call does not end with an error; it is still
    looping after any number of draws. *)
Lemma allocate_exhausted_counterexample :
  11 + List.length (@nil string) > 10 ^ 1
  /\ forall draws, Forall valid_draw draws ->
       generateRandomTicketNumbers draws 11 1 [] = Looping
       /\ forall e, generateRandomTicketNumbers draws 11 1 [] <> Thrown e.
Proof.
  split; [simpl; lia |]. intros draws Hdraws.
  assert (H : generateRandomTicketNumbers draws 11 1 [] = Looping).
  { rewrite generateRandomTicketNumbers_eq by lia.
    apply (generate_loop_stuck 1 11 [] ltac:(lia)); simpl;
      [lia | assumption | constructor | intros x []]. }
  split; [exact H | intros e; rewrite H; discriminate].
Qed.




End Generator.

(** ** Approving and rejecting a submission *)

Section Review.
Import SubmissionBottomSheet.

Variable response_ok : string -> SubmissionUpdate -> bool.

Lemma set_of_length_le (l : list string) :
  List.length (set_of l) <= List.length l.
Proof.
  induction l as [|x l IH]; simpl; [lia |].
  destruct (includes l x); simpl; lia.
Qed.

Lemma set_size_NoDup (l : list string) :
  set_size l = List.length l <-> NoDup l.
Proof.
  unfold set_size. induction l as [|x l IH]; simpl.
  - split; [constructor | reflexivity].
  - pose proof (set_of_length_le l) as Hle.
    destruct (includes l x) eqn:E.
    + apply includes_In in E. split; [lia |].
      intros H. inversion H; contradiction.
    + apply includes_not_In in E. simpl. split.
      * intros H. constructor; [assumption | apply IH; lia].
      * intros H. inversion H; subst. f_equal. now apply IH.
Qed.

Lemma filter_nonempty_existsb {A : Type} (p : A -> bool) (l : list A) :
  (0 <? List.length (filter p l)) = existsb p l.
Proof.
  induction l as [|x l IH]; simpl; [reflexivity |].
  destruct (p x); simpl; [reflexivity | exact IH].
Qed.

Lemma passes_format_check_filter (d : nat) (l : list string) :
  (0 <? List.length (filter (is_invalid_number d) l))
  = negb (passes_format_check d l).
Proof.
  rewrite filter_nonempty_existsb. unfold passes_format_check.
  induction l as [|x l IH]; simpl; [reflexivity |].
  rewrite IH. now destruct (is_invalid_number d x).
Qed.

Lemma duplicate_check (l : list string) :
  negb (set_size l =? List.length l) = true <-> ~ NoDup l.
Proof.
  rewrite <- set_size_NoDup, negb_true_iff, Nat.eqb_neq. reflexivity.
Qed.


(** The three validation steps of [handleApprove], in their order. *)
Lemma handleApprove_cases (submission : Submission.t)
    (ticketNumbers : list string) (d : nat) (existing : list string) :
  handleApprove response_ok (Some submission) ticketNumbers d existing
  = if negb (passes_format_check d ticketNumbers)
    then [alert_invalid_numbers d]
    else if negb (set_size ticketNumbers =? List.length ticketNumbers)
    then [alert_not_unique]
    else if existsb (includes existing) ticketNumbers
    then [alert_conflicts (filter (includes existing) ticketNumbers)]
    else [SetIsApproving true]
         ++ fst (mutateAsync response_ok (Submission.id submission)
                   {| upd_status := approved;
                      upd_assignTickets := Some true;
                      upd_ticketNumbers := Some ticketNumbers;
                      upd_admin_notes := None |})
         ++ (if response_ok (Submission.id submission)
                   {| upd_status := approved;
                      upd_assignTickets := Some true;
                      upd_ticketNumbers := Some ticketNumbers;
                      upd_admin_notes := None |}
             then [Alert "Success" "Submission approved successfully"; OnClose]
             else [ConsoleError "Error approving submission:";
                   Alert "Error" "Failed to approve submission"])
         ++ [SetIsApproving false].
Proof.
  unfold handleApprove.
  rewrite passes_format_check_filter, filter_nonempty_existsb.
  destruct (negb (passes_format_check d ticketNumbers)); [reflexivity |].
  destruct (negb (set_size ticketNumbers =? List.length ticketNumbers));
    [reflexivity |].
  destruct (existsb _ ticketNumbers); [reflexivity |].
  unfold mutateAsync. now destruct (response_ok _ _).
Qed.

Lemma single_alert_changes_nothing (title message : string) :
  changes_nothing [Alert title message].
Proof. intros e [<- | []]. now exists title, message. Qed.

(** C4, as the code has it. For every pending submission, approving
    with a list that contains a duplicate sends no update request and
    changes nothing: the handler only alerts. The alert is the
    DuplicateInBatch one when every element passes the format check, and
    the format error, checked first, otherwise. *)
Theorem approve_with_duplicate_changes_nothing
    (submission : Submission.t) (ticketNumbers : list string) (d : nat)
    (existing : list string) :
  Submission.status submission = pending ->
  ~ NoDup ticketNumbers ->
  let trace :=
    handleApprove response_ok (Some submission) ticketNumbers d existing in
  (passes_format_check d ticketNumbers = true -> trace = [DuplicateInBatch])
  /\ (passes_format_check d ticketNumbers = false ->
      trace = [alert_invalid_numbers d])
  /\ changes_nothing trace
  /\ (forall cache, run_invalidations trace cache = cache).
Proof.
  intros _ Hdup trace. subst trace. rewrite handleApprove_cases.
  apply duplicate_check in Hdup. rewrite Hdup.
  destruct (passes_format_check d ticketNumbers); cbn [negb].
  - split; [reflexivity |]. split; [discriminate |].
    split; [apply single_alert_changes_nothing | reflexivity].
  - split; [discriminate |]. split; [reflexivity |].
    split; [apply single_alert_changes_nothing | reflexivity].
Qed.






Lemma string_app_empty_r (s : string) : (s ++ "")%string = s.
Proof. induction s as [|c s IH]; cbn; [reflexivity | now rewrite IH]. Qed.

Lemma rev_string_rev_string (s : string) : forall acc acc',
  rev_string (rev_string s acc) acc' = rev_string acc (s ++ acc').
Proof.
  induction s as [|c s IH]; intros acc acc'; cbn; [reflexivity |].
  now rewrite IH.
Qed.





Lemma invalid_number_fails_check (d : nat) (l : list string) (n : string) :
  In n l -> is_invalid_number d n = true -> passes_format_check d l = false.
Proof.
  intros Hin Hbad. unfold passes_format_check.
  destruct (forallb _ l) eqn:E; [| reflexivity].
  rewrite forallb_forall in E. specialize (E n Hin).
  now rewrite Hbad in E.
Qed.

End Review.

Lemma approve_with_duplicate_changes_nothing_witness :
  let trace :=
    SubmissionBottomSheet.handleApprove (fun _ _ => true)
      (Some (sample_submission 2)) ["010"; "010"] 3 [] in
  (passes_format_check 3 ["010"; "010"] = true -> trace = [DuplicateInBatch])
  /\ (passes_format_check 3 ["010"; "010"] = false ->
      trace = [SubmissionBottomSheet.alert_invalid_numbers 3])
  /\ changes_nothing trace
  /\ (forall cache, run_invalidations trace cache = cache).
Proof.
  apply (approve_with_duplicate_changes_nothing (fun _ _ => true)
           (sample_submission 2) ["010"; "010"] 3 []).
  - reflexivity.
  - intros H. inversion H as [|? ? Hn _]. apply Hn. left. reflexivity.
Defined.

(** C4 fails as stated: in a three-digit raffle the batch ["01"; "01"]
    holds a duplicate, yet approve fails with the format error, which is
    checked first, and not with DuplicateInBatch. *)
Lemma duplicate_with_bad_format_counterexample :
  Submission.status (sample_submission 2) = pending
  /\ ~ NoDup ["01"; "01"]
  /\ SubmissionBottomSheet.handleApprove (fun _ _ => true)
       (Some (sample_submission 2)) ["01"; "01"] 3 []
     = [Alert "Error" "Please ensure all ticket numbers are 3-digit numbers"]
  /\ SubmissionBottomSheet.handleApprove (fun _ _ => true)
       (Some (sample_submission 2)) ["01"; "01"] 3 []
     <> [DuplicateInBatch].
Proof.
  split; [reflexivity |]. split.
  - intros H. inversion H as [|? ? Hn _]. apply Hn. left. reflexivity.
  - split; [vm_compute; reflexivity |]. vm_compute. intros H. discriminate H.
Qed.



(** C6 at the batch ["1e3"]. The format test of [handleApprove] is the
    length together with [isNaN(Number(s))], and so lets through the
    strings of digitWidth characters that [Number] reads as a number
    though they are not all digits. In a three-digit raffle, for a
    submission of one ticket and with nothing issued, the batch ["1e3"]
    is sent to the update endpoint and approved, and so are "   ", "-12",
    "1.5" and "0x1", while "12a" gets the alert that asks for 3-digit
    numbers. *)
Theorem approve_sends_non_digit_ticket :
  (String.length "1e3" = 3 /\ all_digits "1e3" = false
   /\ Submission.ticket_quantity (sample_submission 1) = List.length ["1e3"]
   /\ SubmissionBottomSheet.handleApprove (fun _ _ => true)
        (Some (sample_submission 1)) ["1e3"] 3 []
      = [SetIsApproving true;
         approve_request (sample_submission 1) ["1e3"];
         InvalidateQueries [Some "submissions"];
         InvalidateQueries [Some "stats"];
         InvalidateQueries [Some "existingTicketNumbers"];
         InvalidateQueries [Some "approvedTickets"];
         Alert "Success" "Submission approved successfully";
         OnClose;
         SetIsApproving false])
  /\ (String.length "   " = 3 /\ all_digits "   " = false
      /\ In (approve_request (sample_submission 1) ["   "])
           (SubmissionBottomSheet.handleApprove (fun _ _ => true)
              (Some (sample_submission 1)) ["   "] 3 []))
  /\ (String.length "-12" = 3 /\ all_digits "-12" = false
      /\ In (approve_request (sample_submission 1) ["-12"])
           (SubmissionBottomSheet.handleApprove (fun _ _ => true)
              (Some (sample_submission 1)) ["-12"] 3 []))
  /\ (String.length "1.5" = 3 /\ all_digits "1.5" = false
      /\ In (approve_request (sample_submission 1) ["1.5"])
           (SubmissionBottomSheet.handleApprove (fun _ _ => true)
              (Some (sample_submission 1)) ["1.5"] 3 []))
  /\ (String.length "0x1" = 3 /\ all_digits "0x1" = false
      /\ In (approve_request (sample_submission 1) ["0x1"])
           (SubmissionBottomSheet.handleApprove (fun _ _ => true)
              (Some (sample_submission 1)) ["0x1"] 3 []))
  /\ SubmissionBottomSheet.handleApprove (fun _ _ => true)
       (Some (sample_submission 1)) ["12a"] 3 []
     = [Alert "Error" "Please ensure all ticket numbers are 3-digit numbers"].
Proof.
  repeat split; try reflexivity;
    try (vm_compute; reflexivity);
    vm_compute; right; left; reflexivity.
Qed.

(** ** Cache invalidation after a review *)

Section Invalidation.

Lemma invalidateQueries_mark (filter : QueryKey) (cache : QueryCache) :
  invalidateQueries filter cache
  = map (mark_stale (fun key => partialMatchKey key filter)) cache.
Proof.
  unfold invalidateQueries, mark_stale. apply map_ext. intros [key stale]. cbn.
  destruct (partialMatchKey key filter).
  - now rewrite orb_true_r.
  - now rewrite orb_false_r.
Qed.

Lemma onSuccess_marks (cache : QueryCache) :
  run_invalidations onSuccess cache = map (mark_stale touched_by_update) cache.
Proof.
  unfold onSuccess. cbn [run_invalidations].
  rewrite !invalidateQueries_mark, !map_map.
  apply map_ext. intros q. unfold mark_stale, touched_by_update.
  cbn [queryKey isInvalidated]. f_equal. now rewrite !orb_assoc.
Qed.

(** C8, as the code has it. A successful reject runs the same
    [onSuccess] as an approval: it marks stale the submission lists, the
    stats, the existing ticket numbers and the approved tickets, and
    leaves the current raffle and the raffles list as they were. *)
Theorem reject_invalidates_like_approve
    (response_ok : string -> SubmissionUpdate -> bool)
    (submission : Submission.t) (rejectionNote : string)
    (cache : QueryCache) :
  is_empty (trim rejectionNote) = false ->
  response_ok (Submission.id submission)
    {| upd_status := rejected; upd_assignTickets := None;
       upd_ticketNumbers := None; upd_admin_notes := Some rejectionNote |}
  = true ->
  run_invalidations
    (SubmissionBottomSheet.handleReject response_ok (Some submission)
       rejectionNote) cache
  = map (mark_stale touched_by_update) cache
  /\ (forall status raffleId,
        touched_by_update (key_submissions status raffleId) = true)
  /\ touched_by_update key_stats = true
  /\ (forall raffleId,
        touched_by_update (key_existingTicketNumbers raffleId) = true)
  /\ (forall raffleId, touched_by_update (key_approvedTickets raffleId) = true)
  /\ touched_by_update key_currentRaffle = false
  /\ touched_by_update key_raffles = false.
Proof.
  intros Hnote Hok. split; [| now repeat split].
  unfold SubmissionBottomSheet.handleReject, mutateAsync.
  rewrite Hnote, Hok.
  change (run_invalidations onSuccess cache
          = map (mark_stale touched_by_update) cache).
  apply onSuccess_marks.
Qed.

Lemma reject_invalidates_like_approve_witness :
  run_invalidations
    (SubmissionBottomSheet.handleReject (fun _ _ => true)
       (Some (sample_submission 2)) "no payment found")
    [ {| queryKey := key_stats; isInvalidated := false |};
      {| queryKey := key_raffles; isInvalidated := false |} ]
  = map (mark_stale touched_by_update)
      [ {| queryKey := key_stats; isInvalidated := false |};
        {| queryKey := key_raffles; isInvalidated := false |} ]
  /\ (forall status raffleId,
        touched_by_update (key_submissions status raffleId) = true)
  /\ touched_by_update key_stats = true
  /\ (forall raffleId,
        touched_by_update (key_existingTicketNumbers raffleId) = true)
  /\ (forall raffleId, touched_by_update (key_approvedTickets raffleId) = true)
  /\ touched_by_update key_currentRaffle = false
  /\ touched_by_update key_raffles = false.
Proof.
  apply (reject_invalidates_like_approve (fun _ _ => true)
           (sample_submission 2) "no payment found").
  - reflexivity.
  - reflexivity.
Defined.

(** C8 fails as stated: after a successful reject the approved tickets
    and the existing ticket numbers of the raffle, fresh before, are
    marked stale. *)
Lemma reject_marks_ticket_lists_counterexample :
  run_invalidations
    (SubmissionBottomSheet.handleReject (fun _ _ => true)
       (Some (sample_submission 2)) "no payment found")
    [ {| queryKey := key_approvedTickets (Some "raffle-1");
         isInvalidated := false |};
      {| queryKey := key_existingTicketNumbers (Some "raffle-1");
         isInvalidated := false |} ]
  = [ {| queryKey := key_approvedTickets (Some "raffle-1");
         isInvalidated := true |};
      {| queryKey := key_existingTicketNumbers (Some "raffle-1");
         isInvalidated := true |} ].
Proof. vm_compute. reflexivity. Qed.

End Invalidation.

(** ** Saving a raffle *)

Section SaveRaffle.
Import EditRaffleBottomSheet.

Lemma parseInt_cases (s : string) :
  parseInt s = NaN \/ exists v, parseInt s = of_int v.
Proof.
  unfold parseInt.
  repeat match goal with
         | |- context [let (_, _) := ?e in _] => destruct e
         end.
  destruct (parse_digits _ _ _); eauto.
Qed.

Lemma number_lt_of_int (a b : Z) :
  number_lt (of_int a) (of_int b) = false -> (b <= a)%Z.
Proof.
  unfold number_lt, of_int. intros H. apply negb_false_iff in H.
  apply Qle_bool_iff in H. now rewrite Zle_Qle.
Qed.

(** C9. The payload that [handleSave] hands to [onSave] never holds
    [max_ticket_digits] when an existing raffle is edited, whatever the
    form holds; for a new raffle it always holds it, with an integer
    between 1 and 10. *)
Theorem handleSave_max_ticket_digits
    (parseFloat : string -> number)
    (onSave : RaffleData -> option SaveError)
    (raffle : option Raffle.t) (form : FormState) (payload : RaffleData) :
  saved_payload (handleSave parseFloat onSave raffle form) = Some payload ->
  match raffle with
  | Some _ => rd_max_ticket_digits payload = None
  | None =>
      exists k : Z,
        rd_max_ticket_digits payload = Some (of_int k) /\ (1 <= k <= 10)%Z
  end.
Proof.
  unfold handleSave.
  destruct (is_empty (trim (title form))); [discriminate |].
  destruct (is_empty (trim (ticketPrice form))
            || isNaN (parseFloat (ticketPrice form))); [discriminate |].
  destruct (number_le _ _); [discriminate |].
  destruct raffle as [raffle |].
  - cbn. intros [= <-]. reflexivity.
  - destruct (is_empty (trim (maxDigits form))); [discriminate |].
    cbn [orb].
    destruct (parseInt_cases (maxDigits form)) as [-> | [k ->]];
      [discriminate |].
    cbn [isNaN].
    destruct (number_lt (of_int k) (of_int 1)) eqn:Hlo; [discriminate |].
    destruct (number_lt (of_int 10) (of_int k)) eqn:Hhi; [discriminate |].
    cbn. intros [= <-]. exists k. cbn.
    apply number_lt_of_int in Hlo. apply number_lt_of_int in Hhi.
    split; [reflexivity | lia].
Qed.

Lemma handleSave_max_ticket_digits_witness :
  rd_max_ticket_digits
    {| rd_title := "Summer raffle"; rd_description := None;
       rd_ticket_price := of_int 5; rd_status := draft;
       rd_image_url := None; rd_max_ticket_digits := None |} = None
  /\ exists k : Z,
       rd_max_ticket_digits
         {| rd_title := "Summer raffle"; rd_description := None;
            rd_ticket_price := of_int 5; rd_status := draft;
            rd_image_url := None;
            rd_max_ticket_digits := Some (of_int 4) |} = Some (of_int k)
       /\ (1 <= k <= 10)%Z.
Proof.
  split.
  - apply (handleSave_max_ticket_digits (fun _ => of_int 5) (fun _ => None)
             (Some (sample_raffle "raffle-1" open "2025-01-01T00:00:00Z"))
             (sample_form "9")).
    vm_compute. reflexivity.
  - apply (handleSave_max_ticket_digits (fun _ => of_int 5) (fun _ => None)
             None (sample_form "4")).
    vm_compute. reflexivity.
Defined.

End SaveRaffle.

(** ** The current raffle *)

Section CurrentRaffleFacts.
Variable getTime : string -> time_value.

Lemma RaffleStatus_eqb_eq (a b : RaffleStatus) :
  RaffleStatus_eqb a b = true <-> a = b.
Proof. destruct a, b; cbn; split; congruence. Qed.

Lemma sort_insert_In {A : Type} (compareFn : A -> A -> time_value)
    (x y : A) (l : list A) :
  In y (sort_insert compareFn x l) <-> y = x \/ In y l.
Proof.
  induction l as [|z l IH]; cbn; [intuition congruence |].
  destruct (sort_order (compareFn x z) <=? 0)%Z; cbn;
    [intuition congruence |].
  rewrite IH. intuition congruence.
Qed.

Lemma sort_In {A : Type} (compareFn : A -> A -> time_value) (y : A)
    (l : list A) :
  In y (sort compareFn l) <-> In y l.
Proof.
  induction l as [|x l IH]; cbn; [reflexivity |].
  rewrite sort_insert_In, IH. intuition congruence.
Qed.

Lemma all_dates_parse_cons (x : Raffle.t) (l : list Raffle.t) :
  all_dates_parse getTime (x :: l) ->
  (exists t, created_time getTime x = Some t) /\ all_dates_parse getTime l.
Proof.
  intros H. split.
  - specialize (H x (or_introl eq_refl)). unfold created_time.
    destruct (getTime (Raffle.created_at x)) as [t |]; [now exists t |].
    congruence.
  - intros r Hr. apply H. now right.
Qed.

(** When every date parses, the head of the sorted array is the first of
    the most recent raffles. *)
Lemma sort_head_first_newest (l : list Raffle.t) :
  l <> [] -> all_dates_parse getTime l ->
  exists r t before after rest,
    sort (newest_first_by getTime) l = r :: rest
    /\ l = before ++ r :: after
    /\ created_time getTime r = Some t
    /\ (forall b t', In b before -> created_time getTime b = Some t' ->
          (t' < t)%Z)
    /\ (forall a t', In a after -> created_time getTime a = Some t' ->
          (t' <= t)%Z).
Proof.
  induction l as [|x l IH]; [congruence |]. intros _ Hparse.
  apply all_dates_parse_cons in Hparse. destruct Hparse as [[tx Hx] Hparse].
  cbn [sort fold_right]. destruct l as [|y l].
  - exists x, tx, [], [], []. repeat split; try reflexivity;
      try assumption; intros ? ? [].
  - destruct (IH ltac:(discriminate) Hparse)
      as (r & t & before & after & rest & Hs & Hl & Ht & Hb & Ha).
    fold (sort (newest_first_by getTime) (y :: l)). rewrite Hs.
    cbn [sort_insert]. unfold newest_first_by at 1.
    rewrite Ht, Hx. cbn [time_minus sort_order].
    destruct (t - tx <=? 0)%Z eqn:E.
    + apply Z.leb_le in E.
      exists x, tx, [], (y :: l), (r :: rest).
      split; [reflexivity |]. split; [reflexivity |].
      split; [exact Hx |]. split; [intros ? ? [] |].
      intros a t' Hin Hta. rewrite Hl in Hin. apply in_app_or in Hin.
      destruct Hin as [Hin | [<- | Hin]].
      * specialize (Hb a t' Hin Hta). lia.
      * rewrite Ht in Hta. injection Hta as <-. lia.
      * specialize (Ha a t' Hin Hta). lia.
    + apply Z.leb_gt in E.
      exists r, t, (x :: before), after,
        (sort_insert (newest_first_by getTime) x rest).
      split; [reflexivity |]. split; [now rewrite Hl |].
      split; [exact Ht |]. split; [| exact Ha].
      intros b t' [<- | Hin] Htb; [| now apply (Hb b)].
      rewrite Hx in Htb. injection Htb as <-. lia.
Qed.

(** C10, as the code has it. The current raffle is a function of the
    list the endpoint returns: none for the empty list; an open raffle of
    the list when it holds one; otherwise, when every created_at of the
    list parses as a date, a raffle of the list whose created_at is the
    latest. *)
Theorem useCurrentRaffle_selection (raffles : list Raffle.t) :
  (raffles = [] -> useCurrentRaffle getTime raffles = None)
  /\ ((exists r, In r raffles /\ Raffle.status r = open) ->
      exists r, useCurrentRaffle getTime raffles = Some r
                /\ In r raffles /\ Raffle.status r = open)
  /\ (raffles <> [] ->
      (forall r, In r raffles -> Raffle.status r <> open) ->
      all_dates_parse getTime raffles ->
      exists r t, useCurrentRaffle getTime raffles = Some r
                  /\ In r raffles
                  /\ getTime (Raffle.created_at r) = Some t
                  /\ forall r', In r' raffles ->
                       exists t', getTime (Raffle.created_at r') = Some t'
                                  /\ (t' <= t)%Z).
Proof.
  unfold useCurrentRaffle, find. split; [| split].
  - intros ->. reflexivity.
  - intros (r & Hin & Hopen).
    destruct (List.find _ raffles) as [o |] eqn:E.
    + apply find_some in E. destruct E as [Ho Hs].
      apply RaffleStatus_eqb_eq in Hs. now exists o.
    + apply (find_none _ _ E) in Hin. apply RaffleStatus_eqb_eq in Hopen.
      congruence.
  - intros Hne Hnone Hparse.
    destruct (List.find _ raffles) as [o |] eqn:E.
    + apply find_some in E. destruct E as [Ho Hs].
      apply RaffleStatus_eqb_eq in Hs. now destruct (Hnone o Ho).
    + destruct (sort_head_first_newest raffles Hne Hparse)
        as (r & t & before & after & rest & Hs & Hl & Ht & Hb & Ha).
      unfold newest_first_by, created_time in Hs. cbv zeta. rewrite Hs.
      exists r, t. split; [reflexivity |].
      split; [rewrite Hl; apply in_or_app; right; now left |].
      split; [exact Ht |].
      intros r' Hin.
      destruct (getTime (Raffle.created_at r')) as [t' |] eqn:Et;
        [| now destruct (Hparse r' Hin)].
      exists t'. split; [reflexivity |].
      rewrite Hl in Hin. apply in_app_or in Hin.
      destruct Hin as [Hin | [<- | Hin]].
      * specialize (Hb r' t' Hin Et). lia.
      * unfold created_time in Ht. rewrite Ht in Et. injection Et as <-. lia.
      * exact (Ha r' t' Hin Et).
Qed.

End CurrentRaffleFacts.

Lemma useCurrentRaffle_selection_witness :
  (useCurrentRaffle sample_getTime [] = None)
  /\ (exists r,
        useCurrentRaffle sample_getTime
          [sample_raffle "a" closed "2025-03-01T00:00:00Z";
           sample_raffle "b" open "2025-01-01T00:00:00Z"] = Some r
        /\ In r [sample_raffle "a" closed "2025-03-01T00:00:00Z";
                 sample_raffle "b" open "2025-01-01T00:00:00Z"]
        /\ Raffle.status r = open)
  /\ (exists r t,
        useCurrentRaffle sample_getTime
          [sample_raffle "a" closed "2025-01-01T00:00:00Z";
           sample_raffle "b" draft "2025-03-01T00:00:00Z";
           sample_raffle "c" completed "2025-02-01T00:00:00Z"] = Some r
        /\ In r [sample_raffle "a" closed "2025-01-01T00:00:00Z";
                 sample_raffle "b" draft "2025-03-01T00:00:00Z";
                 sample_raffle "c" completed "2025-02-01T00:00:00Z"]
        /\ sample_getTime (Raffle.created_at r) = Some t
        /\ forall r',
             In r' [sample_raffle "a" closed "2025-01-01T00:00:00Z";
                    sample_raffle "b" draft "2025-03-01T00:00:00Z";
                    sample_raffle "c" completed "2025-02-01T00:00:00Z"] ->
             exists t', sample_getTime (Raffle.created_at r') = Some t'
                        /\ (t' <= t)%Z).
Proof.
  split; [| split].
  - apply (proj1 (useCurrentRaffle_selection sample_getTime [])). reflexivity.
  - apply (proj1 (proj2 (useCurrentRaffle_selection sample_getTime _))).
    exists (sample_raffle "b" open "2025-01-01T00:00:00Z").
    split; [right; left |]; reflexivity.
  - apply (proj2 (proj2 (useCurrentRaffle_selection sample_getTime _))).
    + discriminate.
    + intros r [<- | [<- | [<- | []]]]; discriminate.
    + intros r [<- | [<- | [<- | []]]]; discriminate.
Defined.

(** C10 fails as stated when a created_at does not parse as a date: its
    time value is NaN, every comparison with it counts as a tie, and the
    sort leaves the January raffle in front of the March one, which is
    the latest. *)
Lemma useCurrentRaffle_unparsable_date_counterexample :
  (forall r, In r [sample_raffle "a" closed "2025-01-01T00:00:00Z";
                   sample_raffle "b" draft "not a date";
                   sample_raffle "c" completed "2025-03-01T00:00:00Z"] ->
     Raffle.status r <> open)
  /\ sample_getTime "not a date" = None
  /\ useCurrentRaffle sample_getTime
       [sample_raffle "a" closed "2025-01-01T00:00:00Z";
        sample_raffle "b" draft "not a date";
        sample_raffle "c" completed "2025-03-01T00:00:00Z"]
     = Some (sample_raffle "a" closed "2025-01-01T00:00:00Z")
  /\ exists ta tc,
       sample_getTime "2025-01-01T00:00:00Z" = Some ta
       /\ sample_getTime "2025-03-01T00:00:00Z" = Some tc
       /\ (ta < tc)%Z.
Proof.
  split; [intros r [<- | [<- | [<- | []]]]; discriminate |].
  split; [reflexivity |]. split; [vm_compute; reflexivity |].
  exists 1735689600000%Z, 1740787200000%Z.
  split; [reflexivity |]. split; [reflexivity | lia].
Qed.

(** ** Accumulating the pages of a list *)

Section Accumulation.
Import Screens.

Lemma flatMap_pages_count {A : Type} (id : A -> string)
    (pages : list (Page A)) (x : string) :
  count_occ string_dec (map id (flatMap_pages (Some pages))) x
  = list_sum
      (map (fun page => count_occ string_dec (map id (items page)) x) pages).
Proof.
  cbn [flatMap_pages]. induction pages as [|page pages IH]; [reflexivity |].
  cbn [flat_map map list_sum fold_right]. rewrite map_app, count_occ_app.
  now rewrite IH.
Qed.

(** C7, as the code has it. The list shown is the concatenation of the
    fetched pages in their order, without deduplication: an item id
    occurs in it as many times as it occurs in all the pages together
    (for submissions, tickets and raffles alike). *)
Theorem accumulation_concatenates_pages
    (submissions : list (Page Submission.t))
    (approvedTickets : list (Page Ticket.t))
    (raffles : list (Page Raffle.t)) (id : string) :
  allSubmissions (Some submissions) = List.concat (map items submissions)
  /\ allTickets (Some approvedTickets) = List.concat (map items approvedTickets)
  /\ allRaffles (Some raffles) = List.concat (map items raffles)
  /\ count_occ string_dec
       (map Submission.id (allSubmissions (Some submissions))) id
     = list_sum (map (fun page =>
                        count_occ string_dec
                          (map Submission.id (items page)) id) submissions)
  /\ count_occ string_dec
       (map Ticket.id (allTickets (Some approvedTickets))) id
     = list_sum (map (fun page =>
                        count_occ string_dec
                          (map Ticket.id (items page)) id) approvedTickets)
  /\ count_occ string_dec (map Raffle.id (allRaffles (Some raffles))) id
     = list_sum (map (fun page =>
                        count_occ string_dec
                          (map Raffle.id (items page)) id) raffles).
Proof.
  unfold allSubmissions, allTickets, allRaffles.
  repeat split; try apply flat_map_concat_map; apply flatMap_pages_count.
Qed.

(** C7 fails as stated: an item that two fetched pages hold appears
    twice in the list shown, for submissions, tickets and raffles. *)
Lemma accumulation_keeps_duplicates_counterexample :
  map Submission.id
    (allSubmissions
       (Some [one_page [sample_submission 1];
              one_page [sample_submission 1]]))
  = ["sub-1"; "sub-1"]
  /\ map Ticket.id
       (allTickets (Some [one_page [sample_ticket]; one_page [sample_ticket]]))
     = ["tic-1"; "tic-1"]
  /\ map Raffle.id
       (allRaffles
          (Some [one_page [sample_raffle "raffle-1" open "2025-01-01"];
                 one_page [sample_raffle "raffle-1" open "2025-01-01"]]))
     = ["raffle-1"; "raffle-1"]
  /\ ~ NoDup ["sub-1"; "sub-1"]
  /\ ~ NoDup ["tic-1"; "tic-1"]
  /\ ~ NoDup ["raffle-1"; "raffle-1"].
Proof.
  repeat split; try reflexivity;
    intros H; inversion H as [|? ? Hn _]; apply Hn; left; reflexivity.
Qed.

End Accumulation.

(* ================================================================== *)
(** * Further properties of the code *)
(* ================================================================== *)

(** ** The generator as a function of the draws *)

Section GeneratorSpec.

Lemma fresh_tickets_length (issued tickets : list string) : forall seen,
  List.length (fresh_tickets issued tickets seen) <= List.length tickets.
Proof.
  induction tickets as [|t rest IH]; intros seen; cbn [fresh_tickets];
    [apply Nat.le_refl |].
  destruct (includes issued t || includes seen t); cbn [List.length].
  - specialize (IH seen). lia.
  - specialize (IH (seen ++ [t])). lia.
Qed.

Lemma fresh_tickets_app (issued a b : list string) : forall seen,
  fresh_tickets issued (a ++ b) seen
  = fresh_tickets issued a seen
    ++ fresh_tickets issued b (seen ++ fresh_tickets issued a seen).
Proof.
  induction a as [|t a IH]; intros seen; cbn [app fresh_tickets].
  - now rewrite app_nil_r.
  - destruct (includes issued t || includes seen t).
    + apply IH.
    + cbn [app]. rewrite IH. now rewrite <- app_assoc.
Qed.

(** The loop, started on [numbers], returns [numbers] followed by the
    first fresh tickets of the draws, as many as [count] asks for. *)
Lemma generate_loop_fresh (count d : nat) (maxNumber : Z)
    (issued : list string) :
  forall (draws : list Q) (numbers : list string),
    List.length numbers <= count ->
    generate_loop draws count d maxNumber issued numbers
    = let fresh :=
        fresh_tickets issued
          (map (fun r => format (to_double (floor_random_times r maxNumber + 1))
                          d) draws)
          numbers in
      if count <=? List.length numbers + List.length fresh
      then Returned (numbers ++ firstn (count - List.length numbers) fresh)
      else Looping.
Proof.
  induction draws as [|r draws IH]; intros numbers Hlen;
    rewrite generate_loop_eq; cbv zeta; cbn [map fresh_tickets List.length].
  - rewrite Nat.add_0_r.
    destruct (List.length numbers <? count) eqn:E.
    + apply Nat.ltb_lt in E.
      replace (count <=? List.length numbers) with false
        by (symmetry; apply Nat.leb_gt; lia).
      reflexivity.
    + apply Nat.ltb_ge in E.
      replace (count <=? List.length numbers) with true
        by (symmetry; apply Nat.leb_le; lia).
      rewrite firstn_nil. now rewrite app_nil_r.
  - destruct (List.length numbers <? count) eqn:E.
    + apply Nat.ltb_lt in E.
      set (t := format (to_double (floor_random_times r maxNumber + 1)) d).
      destruct (includes issued t) eqn:Ei; cbn [negb andb orb].
      * now apply IH.
      * destruct (includes numbers t) eqn:En; cbn [negb andb orb].
        -- now apply IH.
        -- rewrite IH by (rewrite length_app; simpl; lia). cbv zeta.
           rewrite length_app. cbn [List.length].
           rewrite <- Nat.add_assoc. cbn [Nat.add].
           destruct (count <=? _); [| reflexivity].
           replace (count - List.length numbers)
             with (S (count - (List.length numbers + 1))) by lia.
           cbn [firstn]. now rewrite <- app_assoc.
    + apply Nat.ltb_ge in E.
      replace (count <=? List.length numbers + _) with true
        by (symmetry; apply Nat.leb_le; lia).
      replace (count - List.length numbers) with 0 by lia.
      cbn [firstn]. now rewrite app_nil_r.
Qed.

Lemma generateRandomTicketNumbers_fresh (draws : list Q) (count d : nat)
    (issued : list string) :
  generateRandomTicketNumbers draws count d issued
  = if count <=? List.length
                   (fresh_tickets issued (map (ticket_of_draw d) draws) [])
    then Returned
           (firstn count
              (fresh_tickets issued (map (ticket_of_draw d) draws) []))
    else Looping.
Proof.
  unfold generateRandomTicketNumbers. cbv zeta.
  rewrite generate_loop_fresh by (simpl; lia). cbv zeta.
  cbn [List.length Nat.add app]. now rewrite Nat.sub_0_r.
Qed.

(** X1. What the generator computes, on values of Math.random() and up
    to 22 digits, where 10^d is a double: it walks the tickets of the
    draws in order, keeps each ticket the first time it shows unless it
    is issued, and returns the first [count] tickets kept; it is still
    looping when the draws hold fewer than [count] such tickets. *)
Theorem generateRandomTicketNumbers_is_first_fresh_tickets
    (draws : list Q) (count d : nat) (issued : list string) :
  d <= 22 -> Forall valid_draw draws ->
  generateRandomTicketNumbers draws count d issued
  = if count <=? List.length
                   (fresh_tickets issued (map (ticket_of_draw d) draws) [])
    then Returned
           (firstn count
              (fresh_tickets issued (map (ticket_of_draw d) draws) []))
    else Looping.
Proof. intros _ _. apply generateRandomTicketNumbers_fresh. Qed.

(** X2. The generator consumes at least [count] draws, and none after it
    has returned: on fewer draws than [count] it is still looping, and
    once it returns on some draws it returns the same numbers whatever
    draws follow. *)
Theorem generateRandomTicketNumbers_draws_used
    (draws more : list Q) (count d : nat) (issued result : list string) :
  (List.length draws < count ->
   generateRandomTicketNumbers draws count d issued = Looping)
  /\ (generateRandomTicketNumbers draws count d issued = Returned result ->
      generateRandomTicketNumbers (draws ++ more) count d issued
      = Returned result).
Proof.
  rewrite !generateRandomTicketNumbers_fresh. split.
  - intros Hlen.
    pose proof (fresh_tickets_length issued (map (ticket_of_draw d) draws) [])
      as Hle.
    rewrite length_map in Hle.
    replace (count <=? _) with false by (symmetry; apply Nat.leb_gt; lia).
    reflexivity.
  - rewrite map_app, fresh_tickets_app.
    set (fresh := fresh_tickets issued (map (ticket_of_draw d) draws) []).
    destruct (count <=? List.length fresh) eqn:E; [| discriminate].
    apply Nat.leb_le in E. intros [= <-].
    rewrite length_app.
    replace (count <=? _) with true by (symmetry; apply Nat.leb_le; lia).
    rewrite firstn_app. replace (count - List.length fresh) with 0 by lia.
    cbn [firstn]. now rewrite app_nil_r.
Qed.

(** X3. Formatting a ticket loses nothing up to 15 digits: for
    [1 <= d <= 15] and [0 <= n <= 10^d - 1] the string built by
    [n.toString().padStart(d, "0")] has exactly [d] characters, all
    decimal digits, denotes [n], and differs from the string of every
    other number of that range. *)
Theorem ticket_format_round_trip (d : nat) (n m : Z) :
  1 <= d <= 15 ->
  (0 <= n <= 10 ^ Z.of_nat d - 1)%Z -> (0 <= m <= 10 ^ Z.of_nat d - 1)%Z ->
  String.length (padStart (toString n) d "0") = d
  /\ all_digits (padStart (toString n) d "0") = true
  /\ decimal_value (padStart (toString n) d "0") = n
  /\ (padStart (toString n) d "0" = padStart (toString m) d "0" -> n = m).
Proof.
  intros Hd Hn Hm.
  destruct (format_in_range d n Hd Hn) as [Hv (Hl & Ha & _ & _)].
  unfold format in *. repeat split; try assumption.
  now apply (format_injective d n m).
Qed.

End GeneratorSpec.

Lemma generateRandomTicketNumbers_is_first_fresh_tickets_witness :
  generateRandomTicketNumbers [0; 1 # 2; 1 # 2; 255 # 256; 1 # 4]%Q 2 3
    ["001"]
  = if 2 <=? List.length
               (fresh_tickets ["001"]
                  (map (ticket_of_draw 3)
                     [0; 1 # 2; 1 # 2; 255 # 256; 1 # 4]%Q) [])
    then Returned
           (firstn 2
              (fresh_tickets ["001"]
                 (map (ticket_of_draw 3)
                    [0; 1 # 2; 1 # 2; 255 # 256; 1 # 4]%Q) []))
    else Looping.
Proof.
  apply (generateRandomTicketNumbers_is_first_fresh_tickets
           [0; 1 # 2; 1 # 2; 255 # 256; 1 # 4]%Q 2 3 ["001"]).
  - lia.
  - valid_draws.
Defined.

Lemma generateRandomTicketNumbers_draws_used_witness :
  generateRandomTicketNumbers [1 # 2]%Q 2 3 ["001"] = Looping
  /\ generateRandomTicketNumbers ([0; 1 # 2; 1 # 2; 255 # 256] ++ [1 # 4])%Q
       2 3 ["001"]
     = Returned ["500"; "996"].
Proof.
  split.
  - apply (proj1 (generateRandomTicketNumbers_draws_used
                    [1 # 2]%Q [] 2 3 ["001"] [])).
    simpl. lia.
  - apply (proj2 (generateRandomTicketNumbers_draws_used
                    [0; 1 # 2; 1 # 2; 255 # 256]%Q [1 # 4]%Q 2 3 ["001"]
                    ["500"; "996"])).
    vm_compute. reflexivity.
Defined.

Lemma ticket_format_round_trip_witness :
  String.length (padStart (toString 7) 3 "0") = 3
  /\ all_digits (padStart (toString 7) 3 "0") = true
  /\ decimal_value (padStart (toString 7) 3 "0") = 7%Z
  /\ (padStart (toString 7) 3 "0" = padStart (toString 70) 3 "0"
      -> 7%Z = 70%Z).
Proof.
  apply (ticket_format_round_trip 3 7 70); [lia | simpl; lia | simpl; lia].
Defined.

(** ** White space and trimming *)

Section Trimming.

Lemma rev_string_acc (s : string) : forall acc,
  rev_string s acc = (rev_string s "" ++ acc)%string.
Proof.
  induction s as [|c s IH]; intros acc; cbn [rev_string]; [reflexivity |].
  rewrite IH, (IH (String c "")). now rewrite string_app_assoc.
Qed.

Lemma rev_string_snoc (s : string) (c : ascii) :
  rev_string (s ++ String c "") "" = String c (rev_string s "").
Proof.
  induction s as [|x s IH]; cbn [append rev_string]; [reflexivity |].
  rewrite rev_string_acc, IH, (rev_string_acc s (String x "")). reflexivity.
Qed.

Lemma trimStart_snoc (s : string) (c : ascii) :
  is_whitespace c = false ->
  trimStart (s ++ String c "") = (trimStart s ++ String c "")%string.
Proof.
  intros Hc. induction s as [|x s IH]; cbn [append trimStart].
  - now rewrite Hc.
  - destruct (is_whitespace x); [exact IH | reflexivity].
Qed.

(** Trimming the end keeps a first character that is no white space. *)
Lemma trimEnd_cons (c : ascii) (s : string) :
  is_whitespace c = false -> trimEnd (String c s) = String c (trimEnd s).
Proof.
  intros Hc. unfold trimEnd. cbn [rev_string].
  rewrite (rev_string_acc s (String c "")), trimStart_snoc by assumption.
  now rewrite rev_string_snoc.
Qed.

Lemma trimStart_cases (s : string) :
  (trimStart s = "" /\ all_chars is_whitespace s = true)
  \/ (exists c t, trimStart s = String c t /\ is_whitespace c = false
                  /\ all_chars is_whitespace s = false).
Proof.
  induction s as [|x s IH]; cbn [trimStart all_chars]; [now left |].
  destruct (is_whitespace x) eqn:E; cbn [andb]; [exact IH |].
  right. now exists x, s.
Qed.

Lemma trim_empty_iff (s : string) :
  is_empty (trim s) = all_chars is_whitespace s.
Proof.
  unfold trim. destruct (trimStart_cases s) as [[-> ->] | (c & t & -> & Hc & ->)].
  - reflexivity.
  - now rewrite trimEnd_cons.
Qed.

Lemma trimStart_idempotent (s : string) : trimStart (trimStart s) = trimStart s.
Proof.
  induction s as [|x s IH]; cbn [trimStart]; [reflexivity |].
  destruct (is_whitespace x) eqn:E; [exact IH |]. cbn [trimStart]. now rewrite E.
Qed.

Lemma trimEnd_idempotent (s : string) : trimEnd (trimEnd s) = trimEnd s.
Proof.
  unfold trimEnd. rewrite rev_string_rev_string. cbn [rev_string].
  now rewrite string_app_empty_r, trimStart_idempotent.
Qed.

Lemma trim_idempotent (s : string) : trim (trim s) = trim s.
Proof.
  unfold trim. destruct (trimStart_cases s) as [[-> _] | (c & t & -> & Hc & _)].
  - reflexivity.
  - rewrite trimEnd_cons by assumption. cbn [trimStart]. rewrite Hc.
    rewrite <- trimEnd_cons by assumption. apply trimEnd_idempotent.
Qed.

End Trimming.

(** ** More on approving and rejecting *)

Section ReviewMore.
Import SubmissionBottomSheet.

Variable response_ok : string -> SubmissionUpdate -> bool.

(** The trace of an approval that passes the three checks. *)
Lemma valid_batch_is_sent (submission : Submission.t)
    (ticketNumbers : list string) (d : nat) (existing : list string) :
  passes_format_check d ticketNumbers = true ->
  NoDup ticketNumbers ->
  (forall n, In n ticketNumbers -> ~ In n existing) ->
  handleApprove response_ok (Some submission) ticketNumbers d existing
  = if response_ok (Submission.id submission)
         {| upd_status := approved; upd_assignTickets := Some true;
            upd_ticketNumbers := Some ticketNumbers;
            upd_admin_notes := None |}
    then [SetIsApproving true; approve_request submission ticketNumbers]
         ++ onSuccess
         ++ [Alert "Success" "Submission approved successfully"; OnClose;
             SetIsApproving false]
    else [SetIsApproving true; approve_request submission ticketNumbers;
          ConsoleError "Update submission error:";
          ConsoleError "Error approving submission:";
          Alert "Error" "Failed to approve submission";
          SetIsApproving false].
Proof.
  intros Hfmt Hnd Hfresh. rewrite handleApprove_cases, Hfmt. cbn [negb].
  apply set_size_NoDup in Hnd. rewrite Hnd, Nat.eqb_refl. cbn [negb].
  assert (Hc : existsb (includes existing) ticketNumbers = false).
  { destruct (existsb _ ticketNumbers) eqn:E; [| reflexivity].
    apply existsb_exists in E. destruct E as (n & Hn & Hi).
    apply includes_In in Hi. now destruct (Hfresh n Hn). }
  rewrite Hc. unfold mutateAsync, approve_request.
  now destruct (response_ok _ _).
Qed.

(** A request in the trace of [handleApprove] means that the three checks
    passed. *)
Lemma sent_batch_is_valid (submission : Submission.t)
    (ticketNumbers : list string) (d : nat) (existing : list string)
    (id : string) (data : SubmissionUpdate) :
  In (ApiPutSubmission id data)
    (handleApprove response_ok (Some submission) ticketNumbers d existing) ->
  ApiPutSubmission id data = approve_request submission ticketNumbers
  /\ passes_format_check d ticketNumbers = true
  /\ NoDup ticketNumbers
  /\ (forall n, In n ticketNumbers -> ~ In n existing).
Proof.
  rewrite handleApprove_cases.
  destruct (passes_format_check d ticketNumbers) eqn:Hfmt; cbn [negb];
    [| intros [H | []]; discriminate H].
  destruct (set_size ticketNumbers =? List.length ticketNumbers) eqn:Hsz;
    cbn [negb]; [| intros [H | []]; discriminate H].
  destruct (existsb (includes existing) ticketNumbers) eqn:Hc;
    [intros [H | []]; discriminate H |].
  intros Hin.
  assert (Hreq : ApiPutSubmission id data
                 = approve_request submission ticketNumbers).
  { unfold mutateAsync, onSuccess, onError, approve_request in *.
    destruct (response_ok _ _); cbn in Hin;
      repeat (destruct Hin as [Hin | Hin]; try discriminate Hin;
              try (symmetry; exact Hin)); contradiction. }
  split; [exact Hreq |]. split; [reflexivity |]. split.
  - apply set_size_NoDup. now apply Nat.eqb_eq.
  - intros n Hn Hex.
    assert (existsb (includes existing) ticketNumbers = true); [| congruence].
    apply existsb_exists. exists n. split; [assumption |].
    now apply includes_In.
Qed.

Lemma valid_number_shape (d : nat) (l : list string) (n : string) :
  passes_format_check d l = true -> In n l ->
  n <> "" /\ String.length n = d /\ Number_isNaN n = false.
Proof.
  unfold passes_format_check. rewrite forallb_forall. intros H Hin.
  specialize (H n Hin). apply negb_true_iff in H. unfold is_invalid_number in H.
  apply orb_false_iff in H. destruct H as [H Hnan].
  apply orb_false_iff in H. destruct H as [Hemp Hlen].
  apply negb_false_iff, Nat.eqb_eq in Hlen.
  repeat split; try assumption. intros ->. discriminate Hemp.
Qed.

(** X4. Approve never sends a batch it should have refused: a request in
    the trace of [handleApprove] is the approval of the submission with
    exactly the list in the inputs, and then that list has no duplicate,
    no number already issued, and only non-empty elements of
    [raffleMaxDigits] characters that [Number] accepts. *)
Theorem approve_request_only_for_checked_batch
    (submission : Submission.t) (ticketNumbers : list string) (d : nat)
    (existing : list string) (id : string) (data : SubmissionUpdate) :
  In (ApiPutSubmission id data)
    (handleApprove response_ok (Some submission) ticketNumbers d existing) ->
  id = Submission.id submission
  /\ upd_status data = approved
  /\ upd_ticketNumbers data = Some ticketNumbers
  /\ NoDup ticketNumbers
  /\ forall n, In n ticketNumbers ->
       ~ In n existing
       /\ n <> "" /\ String.length n = d /\ Number_isNaN n = false.
Proof.
  intros Hin. apply sent_batch_is_valid in Hin.
  destruct Hin as (Hreq & Hfmt & Hnd & Hfresh).
  unfold approve_request in Hreq. injection Hreq as -> ->.
  repeat split; try assumption; try reflexivity.
  - now apply Hfresh.
  - now destruct (valid_number_shape d ticketNumbers n Hfmt H).
  - now destruct (valid_number_shape d ticketNumbers n Hfmt H) as (_ & ? & _).
  - now destruct (valid_number_shape d ticketNumbers n Hfmt H) as (_ & _ & ?).
Qed.

(** X5. What follows the request of an approval. When the server accepts
    it, the submission lists, the stats, the existing ticket numbers and
    the approved tickets are marked stale and the sheet closes; when the
    server refuses it or cannot be reached, no query is marked, the sheet
    stays open and a failure alert shows. In both cases the approving
    flag, set before the request, is cleared at the end. *)
Theorem approve_outcome
    (submission : Submission.t) (ticketNumbers : list string) (d : nat)
    (existing : list string) (cache : QueryCache) :
  passes_format_check d ticketNumbers = true ->
  NoDup ticketNumbers ->
  (forall n, In n ticketNumbers -> ~ In n existing) ->
  let trace :=
    handleApprove response_ok (Some submission) ticketNumbers d existing in
  let accepted_by_server :=
    response_ok (Submission.id submission)
      {| upd_status := approved; upd_assignTickets := Some true;
         upd_ticketNumbers := Some ticketNumbers; upd_admin_notes := None |} in
  hd_error trace = Some (SetIsApproving true)
  /\ last trace OnClose = SetIsApproving false
  /\ (accepted_by_server = true ->
      run_invalidations trace cache = map (mark_stale touched_by_update) cache
      /\ In OnClose trace
      /\ In (Alert "Success" "Submission approved successfully") trace)
  /\ (accepted_by_server = false ->
      run_invalidations trace cache = cache
      /\ ~ In OnClose trace
      /\ In (Alert "Error" "Failed to approve submission") trace).
Proof.
  intros Hfmt Hnd Hfresh trace ok. subst trace ok.
  rewrite (valid_batch_is_sent submission ticketNumbers d existing Hfmt Hnd Hfresh).
  destruct (response_ok _ _).
  - split; [reflexivity |]. split; [reflexivity |]. split; [| discriminate].
    intros _. split; [| split].
    + change (run_invalidations onSuccess cache
              = map (mark_stale touched_by_update) cache).
      apply onSuccess_marks.
    + cbn. tauto.
    + cbn. tauto.
  - split; [reflexivity |]. split; [reflexivity |]. split; [discriminate |].
    intros _. split; [reflexivity |]. split; [| cbn; tauto].
    cbn. intros H.
    repeat (destruct H as [H | H]; [discriminate H |]). exact H.
Qed.

(** X6. Reject asks for a reason. A note made of white space only (or
    empty) gets the alert and no request; any other note is sent as it
    was typed, not trimmed, in a request that sets the status to rejected
    and carries no ticket numbers. *)
Theorem reject_needs_a_reason (submission : Submission.t) (note : string) :
  (all_chars is_whitespace note = true ->
   handleReject response_ok (Some submission) note
   = [Alert "Error" "Please provide a rejection reason"])
  /\ (all_chars is_whitespace note = false ->
      exists rest,
        handleReject response_ok (Some submission) note
        = SetIsRejecting true :: reject_request submission note :: rest).
Proof.
  unfold handleReject. rewrite trim_empty_iff. split; intros ->.
  - reflexivity.
  - unfold mutateAsync, reject_request.
    destruct (response_ok _ _); cbn; eexists; reflexivity.
Qed.

(** X7. The numbers of the tickets that the tickets endpoint returned for
    the raffle are never approved again: whatever list is submitted, a
    request of [handleApprove] run against the list of
    [useExistingTicketNumbers] holds the number of none of those
    tickets. *)
Theorem approve_never_reuses_a_ticket
    (raffleId : string) (tickets : list Ticket.t) (ticket : Ticket.t)
    (submission : Submission.t) (ticketNumbers : list string) (d : nat)
    (id : string) (data : SubmissionUpdate) :
  raffleId <> "" ->
  In ticket tickets ->
  In (ApiPutSubmission id data)
    (handleApprove response_ok (Some submission) ticketNumbers d
       (Queries.useExistingTicketNumbers (Some raffleId) (Some tickets))) ->
  upd_ticketNumbers data = Some ticketNumbers
  /\ ~ In (Ticket.ticket_number ticket) ticketNumbers.
Proof.
  intros Hid Hticket Hin. apply sent_batch_is_valid in Hin.
  destruct Hin as (Hreq & _ & _ & Hfresh).
  unfold approve_request in Hreq. injection Hreq as -> ->.
  split; [reflexivity |]. intros Hn. apply (Hfresh _ Hn).
  unfold Queries.useExistingTicketNumbers.
  destruct raffleId; [congruence |]. cbn [is_empty].
  now apply in_map.
Qed.

End ReviewMore.

Lemma approve_request_only_for_checked_batch_witness :
  "sub-1" = Submission.id (sample_submission 2)
  /\ upd_status
       {| upd_status := approved; upd_assignTickets := Some true;
          upd_ticketNumbers := Some ["123"; "456"]; upd_admin_notes := None |}
     = approved
  /\ upd_ticketNumbers
       {| upd_status := approved; upd_assignTickets := Some true;
          upd_ticketNumbers := Some ["123"; "456"]; upd_admin_notes := None |}
     = Some ["123"; "456"]
  /\ NoDup ["123"; "456"]
  /\ forall n, In n ["123"; "456"] ->
       ~ In n ["000"]
       /\ n <> "" /\ String.length n = 3 /\ Number_isNaN n = false.
Proof.
  apply (approve_request_only_for_checked_batch (fun _ _ => true)
           (sample_submission 2) ["123"; "456"] 3 ["000"]).
  vm_compute. right. left. reflexivity.
Defined.

Lemma approve_outcome_witness :
  let trace :=
    SubmissionBottomSheet.handleApprove (fun _ _ => false)
      (Some (sample_submission 2)) ["123"; "456"] 3 ["000"] in
  hd_error trace = Some (SetIsApproving true)
  /\ last trace OnClose = SetIsApproving false
  /\ (false = true ->
      run_invalidations trace [] = map (mark_stale touched_by_update) []
      /\ In OnClose trace
      /\ In (Alert "Success" "Submission approved successfully") trace)
  /\ (false = false ->
      run_invalidations trace [] = []
      /\ ~ In OnClose trace
      /\ In (Alert "Error" "Failed to approve submission") trace).
Proof.
  apply (approve_outcome (fun _ _ => false) (sample_submission 2)
           ["123"; "456"] 3 ["000"] []).
  - vm_compute. reflexivity.
  - repeat constructor; simpl; intuition discriminate.
  - intros n [<- | [<- | []]] [H | []]; discriminate H.
Defined.

Lemma reject_needs_a_reason_witness :
  SubmissionBottomSheet.handleReject (fun _ _ => true)
    (Some (sample_submission 2)) "   "
  = [Alert "Error" "Please provide a rejection reason"]
  /\ exists rest,
       SubmissionBottomSheet.handleReject (fun _ _ => true)
         (Some (sample_submission 2)) " no proof "
       = SetIsRejecting true
         :: reject_request (sample_submission 2) " no proof " :: rest.
Proof.
  split.
  - apply (proj1 (reject_needs_a_reason (fun _ _ => true)
                    (sample_submission 2) "   ")).
    reflexivity.
  - apply (proj2 (reject_needs_a_reason (fun _ _ => true)
                    (sample_submission 2) " no proof ")).
    reflexivity.
Defined.

Lemma approve_never_reuses_a_ticket_witness :
  upd_ticketNumbers
    {| upd_status := approved; upd_assignTickets := Some true;
       upd_ticketNumbers := Some ["123"; "456"]; upd_admin_notes := None |}
  = Some ["123"; "456"]
  /\ ~ In (Ticket.ticket_number sample_ticket) ["123"; "456"].
Proof.
  apply (approve_never_reuses_a_ticket (fun _ _ => true) "raffle-1"
           [sample_ticket] sample_ticket (sample_submission 2)
           ["123"; "456"] 3 "sub-1").
  - discriminate.
  - left. reflexivity.
  - vm_compute. right. left. reflexivity.
Defined.

(** ** The ticket inputs of the sheet *)

Section SheetStateFacts.
Import SheetState.

Lemma assign_length (arr : list (option string)) : forall index value,
  List.length (assign arr index value) = Nat.max (List.length arr) (S index).
Proof.
  induction arr as [|x arr IH]; intros index value.
  - induction index as [|index IHi]; cbn [assign List.length]; [reflexivity |].
    rewrite IHi. cbn [List.length]. lia.
  - destruct index as [|index]; cbn [assign List.length]; [lia |].
    rewrite IH. lia.
Qed.

Lemma assign_same (arr : list (option string)) : forall index value,
  nth_error (assign arr index value) index = Some (Some value).
Proof.
  induction arr as [|x arr IH]; intros index value.
  - induction index as [|index IHi]; cbn [assign nth_error];
      [reflexivity | exact IHi].
  - destruct index as [|index]; cbn [assign nth_error]; [reflexivity | apply IH].
Qed.

Lemma assign_other (arr : list (option string)) : forall index value j,
  j <> index -> j < List.length arr ->
  nth_error (assign arr index value) j = nth_error arr j.
Proof.
  induction arr as [|x arr IH]; intros index value j Hj Hlen;
    [simpl in Hlen; lia |].
  destruct index as [|index], j as [|j]; cbn [assign nth_error];
    try reflexivity; try congruence.
  apply IH; [congruence | simpl in Hlen; lia].
Qed.

Lemma assign_hole (arr : list (option string)) : forall index value j,
  List.length arr <= j -> j < index ->
  nth_error (assign arr index value) j = Some None.
Proof.
  induction arr as [|x arr IH]; intros index value j Hlo Hhi.
  - revert j Hlo Hhi. induction index as [|index IHi]; intros j Hlo Hhi; [lia |].
    cbn [assign]. destruct j as [|j]; [reflexivity |].
    cbn [nth_error]. apply IHi; simpl; lia.
  - destruct index as [|index]; [lia |].
    destruct j as [|j]; [simpl in Hlo; lia |].
    cbn [assign nth_error]. apply IH; simpl in *; lia.
Qed.

Lemma assign_in_range (l : list string) : forall index value,
  index < List.length l ->
  exists l', assign (map Some l) index value = map Some l'.
Proof.
  induction l as [|x l IH]; intros index value Hlen; [simpl in Hlen; lia |].
  destruct index as [|index]; cbn [map assign].
  - now exists (value :: l).
  - destruct (IH index value) as [l' Hl']; [simpl in Hlen; lia |].
    exists (x :: l'). cbn [map]. now rewrite Hl'.
Qed.

(** X8. Editing one ticket input. For an index of the list, the edit
    yields a list of the same length with [value] at that index, every
    other element unchanged and no empty slot. For an index past the end,
    the array grows to [index + 1] elements, the old ones unchanged, with
    [value] last and empty slots in between. *)
Theorem handleTicketNumberChange_updates_one_slot
    (ticketNumbers : list string) (index : nat) (value : string) :
  (index < List.length ticketNumbers ->
   exists newNumbers : list string,
     handleTicketNumberChange ticketNumbers index value = map Some newNumbers
     /\ List.length newNumbers = List.length ticketNumbers
     /\ nth_error newNumbers index = Some value
     /\ forall j, j <> index ->
          nth_error newNumbers j = nth_error ticketNumbers j)
  /\ (List.length ticketNumbers <= index ->
      let newNumbers := handleTicketNumberChange ticketNumbers index value in
      List.length newNumbers = S index
      /\ nth_error newNumbers index = Some (Some value)
      /\ (forall j, j < List.length ticketNumbers ->
            nth_error newNumbers j = option_map Some (nth_error ticketNumbers j))
      /\ (forall j, List.length ticketNumbers <= j < index ->
            nth_error newNumbers j = Some None)).
Proof.
  unfold handleTicketNumberChange. cbv zeta. split.
  - intros Hlen.
    destruct (assign_in_range ticketNumbers index value Hlen) as [l' Hl'].
    exists l'.
    pose proof (assign_length (map Some ticketNumbers) index value) as HL.
    pose proof (assign_same (map Some ticketNumbers) index value) as HS.
    rewrite Hl' in HL, HS. rewrite !length_map in HL.
    rewrite nth_error_map in HS.
    split; [exact Hl' |]. split; [lia |]. split.
    + destruct (nth_error l' index); [now injection HS as -> | discriminate].
    + intros j Hj.
      destruct (Nat.lt_ge_cases j (List.length ticketNumbers)) as [Hin | Hout].
      * pose proof (assign_other (map Some ticketNumbers) index value j Hj) as HO.
        rewrite length_map in HO. specialize (HO Hin).
        rewrite Hl', !nth_error_map in HO.
        destruct (nth_error l' j), (nth_error ticketNumbers j);
          cbn in HO; congruence.
      * assert (nth_error l' j = None) as -> by (apply nth_error_None; lia).
        symmetry. now apply nth_error_None.
  - intros Hlen. split; [| split; [| split]].
    + rewrite assign_length, length_map. lia.
    + apply assign_same.
    + intros j Hj. rewrite assign_other; [apply nth_error_map | lia |].
      now rewrite length_map.
    + intros j Hj. apply assign_hole; [rewrite length_map |]; lia.
Qed.

End SheetStateFacts.

Lemma handleTicketNumberChange_updates_one_slot_witness :
  (exists newNumbers : list string,
     SheetState.handleTicketNumberChange ["111"; "222"; "333"] 1 "9"
     = map Some newNumbers
     /\ List.length newNumbers = List.length ["111"; "222"; "333"]
     /\ nth_error newNumbers 1 = Some "9"
     /\ forall j, j <> 1 ->
          nth_error newNumbers j = nth_error ["111"; "222"; "333"] j)
  /\ (let newNumbers := SheetState.handleTicketNumberChange ["111"] 3 "9" in
      List.length newNumbers = 4
      /\ nth_error newNumbers 3 = Some (Some "9")
      /\ (forall j, j < List.length ["111"] ->
            nth_error newNumbers j = option_map Some (nth_error ["111"] j))
      /\ (forall j, List.length ["111"] <= j < 3 ->
            nth_error newNumbers j = Some None)).
Proof.
  split.
  - apply (proj1 (handleTicketNumberChange_updates_one_slot
                    ["111"; "222"; "333"] 1 "9")).
    simpl. lia.
  - apply (proj2 (handleTicketNumberChange_updates_one_slot ["111"] 3 "9")).
    simpl. lia.
Defined.

(** ** The sheet on the dashboard *)

Section DashboardSheet.
Import SubmissionBottomSheet SheetState.



End DashboardSheet.


(** ** Picking a ticket on the dashboard *)

Section TicketPress.
Import Dashboard Screens.

(** X10. Pressing a ticket opens the sheet on the first loaded submission
    with the id that the ticket names: no submission before it in the
    loaded pages has that id. It does nothing when none of the loaded
    pages holds such a submission. *)
Theorem handleTicketPress_opens_the_owner
    (state : SheetSelection) (submissions : option (list (Page Submission.t)))
    (ticket : Ticket.t) :
  ((forall s, In s (allSubmissions submissions) ->
      Submission.id s <> Ticket.submission_id ticket) ->
   handleTicketPress state submissions ticket = state)
  /\ ((exists s, In s (allSubmissions submissions)
                 /\ Submission.id s = Ticket.submission_id ticket) ->
      exists s before after,
        handleTicketPress state submissions ticket
        = {| selectedSubmission := Some s; isBottomSheetVisible := true |}
        /\ allSubmissions submissions = before ++ s :: after
        /\ Submission.id s = Ticket.submission_id ticket
        /\ forall b, In b before ->
             Submission.id b <> Ticket.submission_id ticket).
Proof.
  unfold handleTicketPress, allSubmissions, find. cbv zeta.
  destruct (List.find _ (flatMap_pages submissions)) as [s |] eqn:E.
  - destruct (find_first _ _ _ E) as (before & after & Hl & Hid & Hb).
    apply String.eqb_eq in Hid. split.
    + intros Hnone. destruct (Hnone s); [| exact Hid].
      rewrite Hl. apply in_or_app. right. now left.
    + intros _. exists s, before, after.
      split; [reflexivity |]. split; [exact Hl |]. split; [exact Hid |].
      intros b Hin. apply String.eqb_neq. now apply Hb.
  - split; [reflexivity |]. intros (s & Hin & Hid).
    apply (find_none _ _ E) in Hin. apply String.eqb_neq in Hin. contradiction.
Qed.

End TicketPress.

Lemma handleTicketPress_opens_the_owner_witness :
  Dashboard.handleTicketPress
    {| Dashboard.selectedSubmission := None;
       Dashboard.isBottomSheetVisible := false |}
    None sample_ticket
  = {| Dashboard.selectedSubmission := None;
       Dashboard.isBottomSheetVisible := false |}
  /\ exists s before after,
       Dashboard.handleTicketPress
         {| Dashboard.selectedSubmission := None;
            Dashboard.isBottomSheetVisible := false |}
         (Some [one_page [sample_submission 2]; one_page [sample_submission 5]])
         sample_ticket
       = {| Dashboard.selectedSubmission := Some s;
            Dashboard.isBottomSheetVisible := true |}
       /\ Screens.allSubmissions
            (Some [one_page [sample_submission 2];
                   one_page [sample_submission 5]])
          = before ++ s :: after
       /\ Submission.id s = Ticket.submission_id sample_ticket
       /\ forall b, In b before ->
            Submission.id b <> Ticket.submission_id sample_ticket.
Proof.
  split.
  - apply (proj1 (handleTicketPress_opens_the_owner _ None sample_ticket)).
    intros s [].
  - apply (proj2 (handleTicketPress_opens_the_owner _
                    (Some [one_page [sample_submission 2];
                           one_page [sample_submission 5]]) sample_ticket)).
    exists (sample_submission 2). split; [left |]; reflexivity.
Defined.

(** ** Paging through the submissions *)

Section Paging.
Import Queries.

(** X11. The requests of an enumeration. Every page request carries the
    status and raffle filters of the first one and ends with limit 10; the
    request after a page exists only if the page says [hasMore] and gives
    a cursor, and then it is the first request with that cursor put before
    the limit. An empty cursor is not sent: the request after such a page
    is the first request again. *)
Theorem next_page_request (status raffleId : option string)
    (lastPage : Page Submission.t) :
  let first := useSubmissions_params status raffleId None in
  (hasMore (pagination lastPage) = false ->
   nextSubmissionsRequest status raffleId lastPage = None)
  /\ (nextCursor (pagination lastPage) = None ->
      nextSubmissionsRequest status raffleId lastPage = None)
  /\ (forall cursor,
        hasMore (pagination lastPage) = true ->
        nextCursor (pagination lastPage) = Some cursor ->
        cursor <> "" ->
        nextSubmissionsRequest status raffleId lastPage
        = Some (removelast first ++ [("cursor", cursor); ("limit", "10")]))
  /\ (hasMore (pagination lastPage) = true ->
      nextCursor (pagination lastPage) = Some "" ->
      nextSubmissionsRequest status raffleId lastPage = Some first)
  /\ last first ("", "") = ("limit", "10").
Proof.
  cbv zeta. unfold nextSubmissionsRequest, getNextPageParam, useSubmissions_params.
  cbv zeta.
  set (filters := append_if (append_if [] "status" status) "raffle_id" raffleId).
  cbn [append_if]. split; [| split; [| split; [| split]]].
  - now intros ->.
  - intros ->. now destruct (hasMore _).
  - intros cursor -> -> Hc. destruct cursor; [congruence |]. cbn [is_empty].
    now rewrite removelast_last, <- app_assoc.
  - now intros -> ->.
  - apply last_last.
Qed.

End Paging.

Lemma next_page_request_witness :
  let first := Queries.useSubmissions_params (Some "pending") (Some "r1") None in
  Queries.nextSubmissionsRequest (Some "pending") (Some "r1")
    {| items := [sample_submission 1];
       pagination := {| hasMore := true; nextCursor := Some "abc" |} |}
  = Some (removelast first ++ [("cursor", "abc"); ("limit", "10")]).
Proof.
  apply (proj1 (proj2 (proj2 (next_page_request (Some "pending") (Some "r1")
           {| items := [sample_submission 1];
              pagination := {| hasMore := true; nextCursor := Some "abc" |} |})))).
  - reflexivity.
  - reflexivity.
  - discriminate.
Defined.

(** ** The raffle mutations and the query cache *)

Section RaffleMutationFacts.
Import Queries.

Lemma run_invalidations_filters (filters : list QueryKey) : forall cache,
  run_invalidations (map InvalidateQueries filters) cache
  = map (mark_stale (touched_by filters)) cache.
Proof.
  induction filters as [|f filters IH]; intros cache;
    cbn [map run_invalidations].
  - unfold mark_stale, touched_by. cbn [existsb].
    rewrite <- (map_id cache) at 1. apply map_ext. intros [key stale]. cbn.
    now rewrite orb_false_r.
  - rewrite IH, invalidateQueries_mark, map_map. apply map_ext. intros q.
    unfold mark_stale, touched_by. cbn [queryKey isInvalidated existsb].
    now rewrite orb_assoc.
Qed.

Lemma effects_of_Did (l : list effect) : effects_of (map Did l) = l.
Proof. induction l as [|e l IH]; cbn; [reflexivity | now rewrite IH]. Qed.

Lemma mutation_cache (server : RaffleRequest -> option string)
    (filters : list QueryKey) (onError : string) (request : RaffleRequest)
    (cache : QueryCache) :
  run_invalidations
    (effects_of (fst (mutation server (map InvalidateQueries filters)
                        onError request))) cache
  = match server request with
    | None => map (mark_stale (touched_by filters)) cache
    | Some _ => cache
    end.
Proof.
  unfold mutation. destruct (server request); cbn [fst effects_of].
  - reflexivity.
  - rewrite effects_of_Did. apply run_invalidations_filters.
Qed.

(** X12. What the raffle mutations mark stale. Creating, updating and
    deleting a raffle mark the raffles list, the current raffle and the
    stats; closing a raffle marks the current raffle and the stats but
    not the raffles list; none of the four marks the submission lists or
    the ticket lists; and a request that the server refuses marks
    nothing. *)
Theorem raffle_mutations_invalidate
    (server : RaffleRequest -> option string) (raffleId : string)
    (data : RaffleData) (cache : QueryCache) :
  let after (m : list action * option EditRaffleBottomSheet.SaveError) :=
    run_invalidations (effects_of (fst m)) cache in
  let on_change :=
    touched_by [[Some "raffles"]; [Some "currentRaffle"]; [Some "stats"]] in
  let on_close := touched_by [[Some "currentRaffle"]; [Some "stats"]] in
  after (useCreateRaffle server data)
  = match server (PostRaffle data) with
    | None => map (mark_stale on_change) cache
    | Some _ => cache
    end
  /\ after (useUpdateRaffle server raffleId data)
     = match server (PutRaffle raffleId data) with
       | None => map (mark_stale on_change) cache
       | Some _ => cache
       end
  /\ after (useDeleteRaffle server raffleId)
     = match server (DeleteRaffle raffleId) with
       | None => map (mark_stale on_change) cache
       | Some _ => cache
       end
  /\ after (useCloseRaffle server raffleId)
     = match server (PutRaffleClosed raffleId) with
       | None => map (mark_stale on_close) cache
       | Some _ => cache
       end
  /\ on_close key_raffles = false
  /\ on_change key_raffles = true
  /\ (forall status id,
        on_change (key_submissions status id) = false
        /\ on_close (key_submissions status id) = false)
  /\ (forall id,
        on_change (key_approvedTickets id) = false
        /\ on_close (key_approvedTickets id) = false
        /\ on_change (key_existingTicketNumbers id) = false
        /\ on_close (key_existingTicketNumbers id) = false).
Proof.
  cbv zeta. unfold useCreateRaffle, useUpdateRaffle, useDeleteRaffle,
    useCloseRaffle.
  repeat split;
    try apply (mutation_cache server
                 [[Some "raffles"]; [Some "currentRaffle"]; [Some "stats"]]);
    try apply (mutation_cache server [[Some "currentRaffle"]; [Some "stats"]]).
Qed.

End RaffleMutationFacts.

(** ** Saving a raffle from the screens *)

Section SaveFlows.
Import EditRaffleBottomSheet Queries.

Variable parseFloat : string -> number.

Lemma number_lt_of_int_false (a b : Z) :
  number_lt (of_int a) (of_int b) = false -> (b <= a)%Z.
Proof.
  unfold number_lt, of_int. intros H. apply negb_false_iff in H.
  apply Qle_bool_iff in H. now rewrite Zle_Qle.
Qed.

(** The two shapes of the trace of [handleSave]. *)
Lemma handleSave_cases (onSave : RaffleData -> option SaveError)
    (raffle : option Raffle.t) (form : FormState) :
  (exists message,
     handleSave parseFloat onSave raffle form = [Alert "Error" message])
  \/ (exists data,
        handleSave parseFloat onSave raffle form
        = [SetIsSaving true; OnSave data]
          ++ save_outcome raffle (onSave data) ++ [SetIsSaving false]
        /\ saved_data_ok parseFloat raffle form data).
Proof.
  unfold handleSave.
  destruct (is_empty (trim (title form))) eqn:Et; [left; eexists; reflexivity |].
  destruct (is_empty (trim (ticketPrice form))
            || isNaN (parseFloat (ticketPrice form))) eqn:Ep; [left; eexists; reflexivity |].
  apply orb_false_iff in Ep. destruct Ep as [_ Hnan].
  destruct (number_le _ _) eqn:Ele; [left; eexists; reflexivity |].
  destruct raffle as [raffle |].
  - right. eexists. split.
    + unfold save_outcome. cbv zeta. reflexivity.
    + unfold saved_data_ok. cbn. repeat split; assumption.
  - destruct (is_empty (trim (maxDigits form))); [left; eexists; reflexivity |]. cbn [orb].
    destruct (parseInt_cases (maxDigits form)) as [-> | [k ->]];
      [left; eexists; reflexivity |].
    cbn [isNaN].
    destruct (number_lt (of_int k) (of_int 1)) eqn:Hlo; [left; eexists; reflexivity |].
    destruct (number_lt (of_int 10) (of_int k)) eqn:Hhi; [left; eexists; reflexivity |].
    cbn [orb]. right. eexists. split.
    + unfold save_outcome. cbv zeta. reflexivity.
    + unfold saved_data_ok. cbn.
      apply number_lt_of_int_false in Hlo. apply number_lt_of_int_false in Hhi.
      repeat split; try assumption. exists k. split; [reflexivity | lia].
Qed.

Lemma flat_map_Did (onSave : RaffleData -> list action * option SaveError)
    (l : list effect) :
  (forall data, ~ In (OnSave data) l) ->
  flat_map (fun e => match e with
                     | OnSave raffleData => Did e :: fst (onSave raffleData)
                     | _ => [Did e]
                     end) l
  = map Did l.
Proof.
  induction l as [|e l IH]; intros Hno; [reflexivity |].
  cbn [flat_map map]. rewrite IH by (intros d Hd; apply (Hno d); now right).
  destruct e; try reflexivity. destruct (Hno raffleData). now left.
Qed.

Lemma save_outcome_no_OnSave (raffle : option Raffle.t)
    (result : option SaveError) (data : RaffleData) :
  ~ In (OnSave data) (save_outcome raffle result ++ [SetIsSaving false]).
Proof.
  unfold save_outcome. destruct result; cbn; intros H;
    repeat (destruct H as [H | H]; [discriminate H |]); exact H.
Qed.

(** The two shapes of a save flow. *)
Lemma save_flow_cases (onSave : RaffleData -> list action * option SaveError)
    (raffle : option Raffle.t) (form : FormState) :
  (exists message,
     save_flow parseFloat onSave raffle form = [Did (Alert "Error" message)])
  \/ (exists data,
        save_flow parseFloat onSave raffle form
        = [Did (SetIsSaving true); Did (OnSave data)]
          ++ fst (onSave data)
          ++ map Did (save_outcome raffle (snd (onSave data))
                      ++ [SetIsSaving false])
        /\ saved_data_ok parseFloat raffle form data).
Proof.
  unfold save_flow.
  destruct (handleSave_cases (fun d => snd (onSave d)) raffle form)
    as [[message ->] | (data & -> & Hok)].
  - left. now exists message.
  - right. exists data. split; [| exact Hok].
    cbn [app flat_map]. rewrite flat_map_Did; [reflexivity |].
    intros d. apply save_outcome_no_OnSave.
Qed.

Lemma requests_of_app (a b : list action) :
  requests_of (a ++ b) = requests_of a ++ requests_of b.
Proof.
  induction a as [|x a IH]; [reflexivity |].
  destruct x; cbn; now rewrite IH.
Qed.

Lemma requests_of_Did (l : list effect) : requests_of (map Did l) = [].
Proof. induction l as [|e l IH]; cbn; [reflexivity | exact IH]. Qed.

Lemma save_flow_requests (onSave : RaffleData -> list action * option SaveError)
    (raffle : option Raffle.t) (form : FormState) :
  requests_of (save_flow parseFloat onSave raffle form) = []
  \/ exists data,
       requests_of (save_flow parseFloat onSave raffle form)
       = requests_of (fst (onSave data))
       /\ saved_data_ok parseFloat raffle form data.
Proof.
  destruct (save_flow_cases onSave raffle form)
    as [[message ->] | (data & -> & Hok)]; [now left |].
  right. exists data. split; [| exact Hok].
  rewrite !requests_of_app, requests_of_Did, app_nil_r. reflexivity.
Qed.

Variable server : RaffleRequest -> option string.

Lemma mutation_requests (onSuccess : list effect) (onError : string)
    (request : RaffleRequest) :
  requests_of (fst (mutation server onSuccess onError request)) = [request].
Proof.
  unfold mutation. destruct (server request); cbn [fst requests_of];
    [reflexivity |].
  now rewrite requests_of_Did.
Qed.

Lemma handleCreateSave_requests (data : RaffleData) :
  requests_of (fst (RafflesScreen.handleCreateSave server data))
  = [PostRaffle data].
Proof.
  unfold RafflesScreen.handleCreateSave.
  pose proof (mutation_requests
                [ InvalidateQueries [Some "raffles"];
                  InvalidateQueries [Some "currentRaffle"];
                  InvalidateQueries [Some "stats"] ]
                "Create raffle error:" (PostRaffle data)) as H.
  fold (useCreateRaffle server data) in H.
  destruct (useCreateRaffle server data) as [sent [error |]]; cbn [fst] in *;
    [exact H |].
  rewrite requests_of_app, H. reflexivity.
Qed.

Lemma handleEditSave_requests (selected : Raffle.t) (data : RaffleData) :
  requests_of (fst (RafflesScreen.handleEditSave server (Some selected) data))
  = [PutRaffle (Raffle.id selected) data].
Proof.
  unfold RafflesScreen.handleEditSave.
  pose proof (mutation_requests
                [ InvalidateQueries [Some "raffles"];
                  InvalidateQueries [Some "currentRaffle"];
                  InvalidateQueries [Some "stats"] ]
                "Update raffle error:"
                (PutRaffle (Raffle.id selected) data)) as H.
  fold (useUpdateRaffle server (Raffle.id selected) data) in H.
  destruct (useUpdateRaffle server (Raffle.id selected) data)
    as [sent [error |]]; cbn [fst] in *; [exact H |].
  rewrite requests_of_app, H. reflexivity.
Qed.

Lemma create_flow_requests (form : FormState) :
  requests_of
    (save_flow parseFloat (RafflesScreen.handleCreateSave server) None form)
  = []
  \/ exists data,
       requests_of
         (save_flow parseFloat (RafflesScreen.handleCreateSave server) None
            form)
       = [PostRaffle data]
       /\ saved_data_ok parseFloat None form data.
Proof.
  destruct (save_flow_requests (RafflesScreen.handleCreateSave server) None form)
    as [H | (data & H & Hok)]; [now left |].
  right. exists data. now rewrite H, handleCreateSave_requests.
Qed.

Lemma edit_flow_requests (selected : Raffle.t) (form : FormState) :
  requests_of
    (save_flow parseFloat (RafflesScreen.handleEditSave server (Some selected))
       (Some selected) form)
  = []
  \/ exists data,
       requests_of
         (save_flow parseFloat
            (RafflesScreen.handleEditSave server (Some selected))
            (Some selected) form)
       = [PutRaffle (Raffle.id selected) data]
       /\ saved_data_ok parseFloat (Some selected) form data.
Proof.
  destruct (save_flow_requests
              (RafflesScreen.handleEditSave server (Some selected))
              (Some selected) form) as [H | (data & H & Hok)]; [now left |].
  right. exists data. now rewrite H, handleEditSave_requests.
Qed.

Lemma dashboard_flow_requests (current : Raffle.t) (form : FormState) :
  requests_of
    (save_flow parseFloat (Dashboard.handleEditRaffleSave server (Some current))
       (Some current) form)
  = []
  \/ exists data,
       requests_of
         (save_flow parseFloat
            (Dashboard.handleEditRaffleSave server (Some current))
            (Some current) form)
       = [PutRaffle (Raffle.id current) data]
       /\ saved_data_ok parseFloat (Some current) form data.
Proof.
  destruct (save_flow_requests
              (Dashboard.handleEditRaffleSave server (Some current))
              (Some current) form) as [H | (data & H & Hok)]; [now left |].
  right. exists data. rewrite H. split; [| exact Hok].
  unfold Dashboard.handleEditRaffleSave, useUpdateRaffle.
  apply mutation_requests.
Qed.

Lemma nonempty_title (data : RaffleData) :
  is_empty (rd_title data) = false -> rd_title data <> "".
Proof. intros H E. rewrite E in H. discriminate H. Qed.

(** X13. The requests of the raffle forms. Saving the create form of the
    raffles screen sends at most one request, a POST whose body holds
    max_ticket_digits between 1 and 10; saving the edit form of the
    raffles screen, or that of the dashboard, sends at most one request, a
    PUT to the raffle shown whose body has no max_ticket_digits. In each
    case the title sent is the trimmed, non-empty title of the form. *)
Theorem raffle_form_requests (selected : Raffle.t) (form : FormState)
    (request : RaffleRequest) :
  let create :=
    save_flow parseFloat (RafflesScreen.handleCreateSave server) None form in
  let edit :=
    save_flow parseFloat (RafflesScreen.handleEditSave server (Some selected))
      (Some selected) form in
  let dashboard :=
    save_flow parseFloat (Dashboard.handleEditRaffleSave server (Some selected))
      (Some selected) form in
  (List.length (requests_of create) <= 1
   /\ List.length (requests_of edit) <= 1
   /\ List.length (requests_of dashboard) <= 1)
  /\ (In request (requests_of create) ->
      exists data k,
        request = PostRaffle data
        /\ rd_max_ticket_digits data = Some (of_int k) /\ (1 <= k <= 10)%Z
        /\ rd_title data = trim (title form) /\ rd_title data <> "")
  /\ (In request (requests_of edit) \/ In request (requests_of dashboard) ->
      exists data,
        request = PutRaffle (Raffle.id selected) data
        /\ rd_max_ticket_digits data = None
        /\ rd_title data = trim (title form) /\ rd_title data <> "").
Proof.
  cbv zeta. split; [| split].
  - split; [| split].
    + destruct (create_flow_requests form) as [-> | (d & -> & _)]; cbn; lia.
    + destruct (edit_flow_requests selected form) as [-> | (d & -> & _)];
        cbn; lia.
    + destruct (dashboard_flow_requests selected form) as [-> | (d & -> & _)];
        cbn; lia.
  - destruct (create_flow_requests form) as [-> | (d & -> & Hok)];
      [intros [] |].
    intros [<- | []].
    destruct Hok as (Ht & Hn & _ & _ & _ & _ & _ & _ & k & Hk & Hr).
    exists d, k. split; [reflexivity |]. split; [exact Hk |].
    split; [exact Hr |]. split; [exact Ht | now apply nonempty_title].
  - intros [Hin | Hin].
    + destruct (edit_flow_requests selected form) as [H | (d & H & Hok)];
        rewrite H in Hin; [destruct Hin |].
      destruct Hin as [<- | []].
      destruct Hok as (Ht & Hn & _ & _ & _ & _ & _ & _ & Hk).
      exists d. split; [reflexivity |]. split; [exact Hk |].
      split; [exact Ht | now apply nonempty_title].
    + destruct (dashboard_flow_requests selected form) as [H | (d & H & Hok)];
        rewrite H in Hin; [destruct Hin |].
      destruct Hin as [<- | []].
      destruct Hok as (Ht & Hn & _ & _ & _ & _ & _ & _ & Hk).
      exists d. split; [reflexivity |]. split; [exact Hk |].
      split; [exact Ht | now apply nonempty_title].
Qed.

(** X14. What a saved payload looks like, for a new raffle and for an
    existing one: its title is the trimmed title of the form, non-empty
    and with no white space left to trim; its price is a number above
    zero; its description and image are null rather than empty; its
    status is the one chosen in the form. *)
Theorem saved_payload_is_clean (onSave : RaffleData -> option SaveError)
    (raffle : option Raffle.t) (form : FormState) (payload : RaffleData) :
  saved_payload (handleSave parseFloat onSave raffle form) = Some payload ->
  rd_title payload = trim (title form)
  /\ trim (rd_title payload) = rd_title payload
  /\ rd_title payload <> ""
  /\ isNaN (rd_ticket_price payload) = false
  /\ number_le (rd_ticket_price payload) (of_int 0) = false
  /\ rd_description payload <> Some ""
  /\ rd_image_url payload <> Some ""
  /\ rd_status payload = status form.
Proof.
  destruct (handleSave_cases onSave raffle form)
    as [[message ->] | (data & -> & Hok)]; [discriminate |].
  cbn [app saved_payload]. intros [= <-].
  destruct Hok as (Ht & Hn & Hd & _ & Hnan & Hle & Hs & Hi & _).
  assert (Hnull : forall s, or_null s <> Some "").
  { intros [|c s]; cbn; [discriminate | intros [= H]; discriminate H]. }
  split; [exact Ht |]. split; [rewrite Ht; apply trim_idempotent |].
  split; [intros E; rewrite E in Hn; discriminate Hn |].
  split; [exact Hnan |]. split; [exact Hle |].
  split; [rewrite Hd; apply Hnull |]. split; [rewrite Hi; apply Hnull |].
  exact Hs.
Qed.

(** X15. A create request that the server refuses. The alert shows the
    message of the server, the create modal stays open (no [onClose], no
    [setIsCreateModalVisible(false)]), no query is marked stale and the
    saving flag is cleared; when the server accepts, the sheet closes, the
    modal is hidden and the raffles list, the current raffle and the stats
    are marked. *)
Theorem create_flow_outcome (form : FormState) (data : RaffleData)
    (cache : QueryCache) :
  let flow :=
    save_flow parseFloat (RafflesScreen.handleCreateSave server) None form in
  In (PostRaffle data) (requests_of flow) ->
  last flow (Did OnClose) = Did (SetIsSaving false)
  /\ (forall message,
        server (PostRaffle data) = Some message -> message <> "" ->
        In (Did (Alert "Error" message)) flow
        /\ ~ In (Did OnClose) flow
        /\ ~ In (SetIsCreateModalVisible false) flow
        /\ run_invalidations (effects_of flow) cache = cache)
  /\ (server (PostRaffle data) = None ->
      In (Did (Alert "Success" "Raffle created successfully")) flow
      /\ In (Did OnClose) flow
      /\ In (SetIsCreateModalVisible false) flow
      /\ run_invalidations (effects_of flow) cache
         = map (mark_stale
                  (touched_by [[Some "raffles"]; [Some "currentRaffle"];
                               [Some "stats"]])) cache).
Proof.
  cbv zeta.
  destruct (save_flow_cases (RafflesScreen.handleCreateSave server) None form)
    as [[message ->] | (d & -> & Hok)]; [intros [] |].
  rewrite !requests_of_app, requests_of_Did, app_nil_r.
  cbn [requests_of app]. rewrite handleCreateSave_requests.
  intros [[= ->] | []].
  unfold RafflesScreen.handleCreateSave, useCreateRaffle, mutation.
  destruct (server (PostRaffle data)) as [message |].
  - cbn [fst snd save_outcome errorMessage map app].
    split; [reflexivity |]. split; [| discriminate].
    intros m [= <-] Hm. destruct message as [|c message]; [congruence |].
    cbn [is_empty]. split; [cbn; tauto |]. split; [| split].
    + cbn. intros H. repeat (destruct H as [H | H]; [discriminate H |]). exact H.
    + cbn. intros H. repeat (destruct H as [H | H]; [discriminate H |]). exact H.
    + reflexivity.
  - cbn [fst snd save_outcome map app].
    split; [reflexivity |]. split; [discriminate |].
    intros _. split; [cbn; tauto |]. split; [cbn; tauto |].
    split; [cbn; tauto |].
    cbn [effects_of].
    change (run_invalidations
              (map InvalidateQueries
                 [[Some "raffles"]; [Some "currentRaffle"]; [Some "stats"]])
              cache
            = map (mark_stale
                     (touched_by [[Some "raffles"]; [Some "currentRaffle"];
                                  [Some "stats"]])) cache).
    apply run_invalidations_filters.
Qed.

End SaveFlows.

Lemma raffle_form_requests_witness :
  (exists data k,
     Queries.PostRaffle
       {| rd_title := "Summer raffle"; rd_description := None;
          rd_ticket_price := of_int 5; rd_status := draft;
          rd_image_url := None; rd_max_ticket_digits := Some (of_int 4) |}
     = Queries.PostRaffle data
     /\ rd_max_ticket_digits data = Some (of_int k) /\ (1 <= k <= 10)%Z
     /\ rd_title data = trim (EditRaffleBottomSheet.title (sample_form "4"))
     /\ rd_title data <> "")
  /\ (exists data,
        Queries.PutRaffle "raffle-1"
          {| rd_title := "Summer raffle"; rd_description := None;
             rd_ticket_price := of_int 5; rd_status := draft;
             rd_image_url := None; rd_max_ticket_digits := None |}
        = Queries.PutRaffle
            (Raffle.id (sample_raffle "raffle-1" open "2025-01-01T00:00:00Z"))
            data
        /\ rd_max_ticket_digits data = None
        /\ rd_title data = trim (EditRaffleBottomSheet.title (sample_form "4"))
        /\ rd_title data <> "").
Proof.
  split.
  - apply (proj1 (proj2 (raffle_form_requests (fun _ => of_int 5)
                           (fun _ => None)
                           (sample_raffle "raffle-1" open "2025-01-01T00:00:00Z")
                           (sample_form "4") _))).
    vm_compute. left. reflexivity.
  - apply (proj2 (proj2 (raffle_form_requests (fun _ => of_int 5)
                           (fun _ => None)
                           (sample_raffle "raffle-1" open "2025-01-01T00:00:00Z")
                           (sample_form "4") _))).
    left. vm_compute. left. reflexivity.
Defined.

Lemma saved_payload_is_clean_witness :
  let payload :=
    {| rd_title := "Summer raffle"; rd_description := None;
       rd_ticket_price := of_int 5; rd_status := draft;
       rd_image_url := None; rd_max_ticket_digits := Some (of_int 4) |} in
  rd_title payload = trim (EditRaffleBottomSheet.title (sample_form "4"))
  /\ trim (rd_title payload) = rd_title payload
  /\ rd_title payload <> ""
  /\ isNaN (rd_ticket_price payload) = false
  /\ number_le (rd_ticket_price payload) (of_int 0) = false
  /\ rd_description payload <> Some ""
  /\ rd_image_url payload <> Some ""
  /\ rd_status payload = EditRaffleBottomSheet.status (sample_form "4").
Proof.
  apply (saved_payload_is_clean (fun _ => of_int 5) (fun _ => None) None
           (sample_form "4")).
  vm_compute. reflexivity.
Defined.

Lemma create_flow_outcome_witness :
  let flow :=
    save_flow (fun _ => of_int 5) (RafflesScreen.handleCreateSave
                                     (fun _ => Some "Title already used"))
      None (sample_form "4") in
  last flow (Queries.Did OnClose) = Queries.Did (SetIsSaving false)
  /\ (forall message,
        Some "Title already used" = Some message -> message <> "" ->
        In (Queries.Did (Alert "Error" message)) flow
        /\ ~ In (Queries.Did OnClose) flow
        /\ ~ In (Queries.SetIsCreateModalVisible false) flow
        /\ run_invalidations (Queries.effects_of flow) [] = [])
  /\ (Some "Title already used" = None ->
      In (Queries.Did (Alert "Success" "Raffle created successfully")) flow
      /\ In (Queries.Did OnClose) flow
      /\ In (Queries.SetIsCreateModalVisible false) flow
      /\ run_invalidations (Queries.effects_of flow) []
         = map (mark_stale
                  (touched_by [[Some "raffles"]; [Some "currentRaffle"];
                               [Some "stats"]])) []).
Proof.
  apply (create_flow_outcome (fun _ => of_int 5)
           (fun _ => Some "Title already used") (sample_form "4")
           {| rd_title := "Summer raffle"; rd_description := None;
              rd_ticket_price := of_int 5; rd_status := draft;
              rd_image_url := None; rd_max_ticket_digits := Some (of_int 4) |}
           []).
  vm_compute. left. reflexivity.
Defined.

(** ** Which raffle is the current one *)

Section CurrentRaffleChoice.
Variable getTime : string -> time_value.

(** X16. Which raffle [useCurrentRaffle] picks among several. An open
    raffle that it returns is the first open one in the order of the
    response. A raffle that is not open is returned only when none of
    the list is open, and then, when every created_at of the list parses
    as a date, it is the first, in that order, of the raffles with the
    latest created_at: every raffle before it is strictly older, none is
    more recent. *)
Theorem useCurrentRaffle_picks_the_first (raffles : list Raffle.t)
    (r : Raffle.t) :
  useCurrentRaffle getTime raffles = Some r ->
  (Raffle.status r = open ->
   exists before after,
     raffles = before ++ r :: after
     /\ forall b, In b before -> Raffle.status b <> open)
  /\ (Raffle.status r <> open ->
      (forall x, In x raffles -> Raffle.status x <> open)
      /\ (all_dates_parse getTime raffles ->
          exists t before after,
            raffles = before ++ r :: after
            /\ getTime (Raffle.created_at r) = Some t
            /\ (forall b t', In b before ->
                  getTime (Raffle.created_at b) = Some t' -> (t' < t)%Z)
            /\ (forall a t', In a after ->
                  getTime (Raffle.created_at a) = Some t' -> (t' <= t)%Z))).
Proof.
  unfold useCurrentRaffle, find.
  destruct (List.find _ raffles) as [o |] eqn:E.
  - intros [= <-].
    destruct (find_first _ _ _ E) as (before & after & Hl & Ho & Hb).
    apply RaffleStatus_eqb_eq in Ho. split; [| congruence].
    intros _. exists before, after. split; [exact Hl |].
    intros b Hin Hopen. specialize (Hb b Hin). cbn in Hb.
    rewrite Hopen in Hb. discriminate Hb.
  - cbv zeta. intros Hnth.
    assert (Hnone : forall x, In x raffles -> Raffle.status x <> open).
    { intros x Hin Hopen. apply (find_none _ _ E) in Hin.
      rewrite Hopen in Hin. discriminate Hin. }
    assert (Hin : In r raffles).
    { apply (sort_In (fun a b => time_minus (getTime (Raffle.created_at b))
                                   (getTime (Raffle.created_at a)))).
      destruct (sort _ raffles) as [|x rest]; [discriminate Hnth |].
      injection Hnth as <-. now left. }
    split; [intros Hopen; now destruct (Hnone r Hin) |].
    intros _. split; [exact Hnone |]. intros Hparse.
    assert (Hne : raffles <> []) by (intros ->; destruct Hin).
    destruct (sort_head_first_newest getTime raffles Hne Hparse)
      as (r' & t & before & after & rest & Hs & Hl & Ht & Hb & Ha).
    unfold newest_first_by, created_time in Hs. rewrite Hs in Hnth.
    injection Hnth as <-.
    exists t, before, after. split; [exact Hl |]. split; [exact Ht |].
    split; [exact Hb | exact Ha].
Qed.

End CurrentRaffleChoice.

Lemma useCurrentRaffle_picks_the_first_witness :
  (forall x,
     In x [sample_raffle "a" closed "2025-03-01T00:00:00Z";
           sample_raffle "b" draft "2025-03-01T00:00:00Z";
           sample_raffle "c" completed "2025-02-01T00:00:00Z"] ->
     Raffle.status x <> open)
  /\ exists t before after,
       [sample_raffle "a" closed "2025-03-01T00:00:00Z";
        sample_raffle "b" draft "2025-03-01T00:00:00Z";
        sample_raffle "c" completed "2025-02-01T00:00:00Z"]
       = before ++ sample_raffle "a" closed "2025-03-01T00:00:00Z" :: after
       /\ sample_getTime
            (Raffle.created_at
               (sample_raffle "a" closed "2025-03-01T00:00:00Z"))
          = Some t
       /\ (forall b t', In b before ->
             sample_getTime (Raffle.created_at b) = Some t' -> (t' < t)%Z)
       /\ (forall a t', In a after ->
             sample_getTime (Raffle.created_at a) = Some t' -> (t' <= t)%Z).
Proof.
  destruct (useCurrentRaffle_picks_the_first sample_getTime
              [sample_raffle "a" closed "2025-03-01T00:00:00Z";
               sample_raffle "b" draft "2025-03-01T00:00:00Z";
               sample_raffle "c" completed "2025-02-01T00:00:00Z"]
              (sample_raffle "a" closed "2025-03-01T00:00:00Z")
              ltac:(vm_compute; reflexivity)) as [_ H].
  destruct (H ltac:(discriminate)) as [Hnone Hparsed].
  split; [exact Hnone |]. apply Hparsed.
  intros r [<- | [<- | [<- | []]]]; discriminate.
Defined.

(** ** Opening the raffle form and saving it *)

Section FormRoundTrip.
Import EditRaffleBottomSheet EditRaffleForm.

Variable parseFloat : string -> number.
Variable numberToString : number -> string.
Variable onSave : RaffleData -> option SaveError.

Lemma or_else_empty (s : string) : or_else s "" = s.
Proof. now destruct s. Qed.

(** X17. Saving the form in the state that the effect on the [raffle]
    prop sets, before any field is edited, sends the raffle back: for a
    raffle with a title that is not blank and a price above zero that
    survives printing and parsing, the payload of [handleSave] on
    [resetForm (Some raffle)] holds the trimmed title, the trimmed
    description (null when blank), the price, the status and the image
    of the raffle, and no max_ticket_digits. When the prop is null the
    effect sets the digit field to "6": with a title and a price typed
    in and the digit field not touched, a payload that is saved asks for
    6 digits. *)
Theorem untouched_form_round_trip (raffle : Raffle.t) (t p : string)
    (payload : RaffleData) :
  (is_empty (trim (Raffle.title raffle)) = false ->
   is_empty (trim (numberToString (Raffle.ticket_price raffle))) = false ->
   parseFloat (numberToString (Raffle.ticket_price raffle))
   = Raffle.ticket_price raffle ->
   isNaN (Raffle.ticket_price raffle) = false ->
   number_le (Raffle.ticket_price raffle) (of_int 0) = false ->
   saved_payload
     (handleSave parseFloat onSave (Some raffle)
        (resetForm numberToString (Some raffle)))
   = Some {| rd_title := trim (Raffle.title raffle);
             rd_description :=
               or_null (trim (or_empty (Raffle.description raffle)));
             rd_ticket_price := Raffle.ticket_price raffle;
             rd_status := Raffle.status raffle;
             rd_image_url := or_null (or_empty (Raffle.image_url raffle));
             rd_max_ticket_digits := None |})
  /\ (saved_payload
        (handleSave parseFloat onSave None
           (with_title_and_price (resetForm numberToString None) t p))
      = Some payload ->
      rd_max_ticket_digits payload = Some (of_int 6)).
Proof.
  split.
  - intros Ht Hp Hrt Hnan Hle. unfold handleSave, resetForm.
    cbn [title description ticketPrice status maxDigits imageBase64].
    rewrite !or_else_empty, Ht, Hp, Hrt, Hnan, Hle. reflexivity.
  - unfold handleSave, resetForm, with_title_and_price.
    cbn [title description ticketPrice status maxDigits imageBase64].
    destruct (is_empty (trim t)); [discriminate |].
    destruct (is_empty (trim p) || isNaN (parseFloat p)); [discriminate |].
    destruct (number_le _ _); [discriminate |].
    cbn. intros [= <-]. reflexivity.
Qed.

End FormRoundTrip.

Lemma untouched_form_round_trip_witness :
  EditRaffleBottomSheet.saved_payload
    (EditRaffleBottomSheet.handleSave (fun _ => of_int 5) (fun _ => None)
       (Some (sample_raffle "raffle-1" open "2025-01-01T00:00:00Z"))
       (EditRaffleForm.resetForm (fun _ => "5")
          (Some (sample_raffle "raffle-1" open "2025-01-01T00:00:00Z"))))
  = Some {| rd_title := trim "Raffle";
            rd_description := EditRaffleBottomSheet.or_null (trim "");
            rd_ticket_price := of_int 5;
            rd_status := open;
            rd_image_url := EditRaffleBottomSheet.or_null "";
            rd_max_ticket_digits := None |}
  /\ rd_max_ticket_digits
       {| rd_title := "Summer raffle"; rd_description := None;
          rd_ticket_price := of_int 5; rd_status := draft;
          rd_image_url := None; rd_max_ticket_digits := Some (of_int 6) |}
     = Some (of_int 6).
Proof.
  split.
  - apply (proj1 (untouched_form_round_trip (fun _ => of_int 5) (fun _ => "5")
                    (fun _ => None)
                    (sample_raffle "raffle-1" open "2025-01-01T00:00:00Z")
                    "" "" {| rd_title := ""; rd_description := None;
                             rd_ticket_price := NaN; rd_status := draft;
                             rd_image_url := None;
                             rd_max_ticket_digits := None |}));
      reflexivity.
  - apply (proj2 (untouched_form_round_trip (fun _ => of_int 5) (fun _ => "5")
                    (fun _ => None)
                    (sample_raffle "raffle-1" open "2025-01-01T00:00:00Z")
                    " Summer raffle " "5" _)).
    vm_compute. reflexivity.
Defined.
